(** * Adafruit_MMC56x3: a shallow embedding of the MMC5603 driver

    The driver of [Adafruit_MMC56x3.cpp] is embedded as functions of a small
    state-and-trace monad.  The object's fields are a record, the I2C device
    and the clock are an environment that answers as a function of everything
    that happened on the bus so far, and the busy-poll loops take fuel.

    Integers are [Z] with the wrap-around of their C type written out; the
    [float] arithmetic is IEEE 754 arithmetic as specified by [SpecFloat], and
    its rounding errors are measured in the real numbers. *)

From Stdlib Require Import Reals Lra.
From Stdlib Require Import ZArith List Bool Lia String Ascii.
From Stdlib Require Import Strings.Byte.
From Stdlib Require Import SpecFloat.
Import ListNotations.
Open Scope Z_scope.

(** ** Fixed-width integers *)

Definition to_uint8 (v : Z) : Z := v mod 2 ^ 8.
Definition to_uint32 (v : Z) : Z := v mod 2 ^ 32.
(** Two's complement reading of the low 32 bits. *)
Definition to_int32 (v : Z) : Z := (v + 2 ^ 31) mod 2 ^ 32 - 2 ^ 31.

Definition is_uint8 (v : Z) : Prop := 0 <= v < 2 ^ 8.
Definition is_int32 (v : Z) : Prop := - 2 ^ 31 <= v < 2 ^ 31.

(** The value of a byte that came off the bus. *)
Definition byte_val (b : byte) : Z := Z.of_N (Byte.to_N b).

(** ** Floating point

    [float] is binary32.  [double] is binary64 on the 32-bit targets and
    binary32 on AVR, so the format of [double] is a parameter of the target. *)

Inductive fformat := binary32 | binary64.

Definition fprec (f : fformat) : Z :=
  match f with binary32 => 24 | binary64 => 53 end.
Definition femax (f : fformat) : Z :=
  match f with binary32 => 128 | binary64 => 1024 end.

(** Conversion of an integer, to nearest even. *)
Definition float_of_Z (f : fformat) (n : Z) : spec_float :=
  binary_normalize (fprec f) (femax f) n 0 false.

(** Conversion between formats: exact when widening, to nearest even when
    narrowing. *)
Definition fconv (f : fformat) (v : spec_float) : spec_float :=
  match v with
  | S754_finite s m e => binary_round (fprec f) (femax f) s m e
  | _ => v
  end.

Definition fmul (f : fformat) (a b : spec_float) : spec_float :=
  SFmul (fprec f) (femax f) a b.
Definition fsub (f : fformat) (a b : spec_float) : spec_float :=
  SFsub (fprec f) (femax f) a b.

(** The decimal literal num/den, rounded to nearest as a compiler does: the
    correctly rounded quotient of two exactly representable integers. *)
Definition fliteral (f : fformat) (num den : Z) : spec_float :=
  SFdiv (fprec f) (femax f) (float_of_Z f num) (float_of_Z f den).

Definition NAN : spec_float := S754_nan.

Definition is_nan (v : spec_float) : bool :=
  match v with S754_nan => true | _ => false end.

(** ** What the missing headers fix

    [Adafruit_MMC56x3.h] and [Adafruit_Sensor.h] are not part of the source
    at hand.  The register enumeration is kept symbolic; the numeric constants
    the driver copies into an event, and the format of [double], are
    parameters. *)

Inductive mmc56x3_register_t :=
| MMC56X3_PRODUCT_ID
| MMC56X3_CTRL0_REG
| MMC56X3_CTRL1_REG
| MMC56X3_CTRL2_REG
| MMC56X3_STATUS_REG
| MMC56X3_OUT_TEMP
| MMC56X3_OUT_X_L
| MMC5603_ODR_REG.

Definition register_eqb (a b : mmc56x3_register_t) : bool :=
  match a, b with
  | MMC56X3_PRODUCT_ID, MMC56X3_PRODUCT_ID
  | MMC56X3_CTRL0_REG, MMC56X3_CTRL0_REG
  | MMC56X3_CTRL1_REG, MMC56X3_CTRL1_REG
  | MMC56X3_CTRL2_REG, MMC56X3_CTRL2_REG
  | MMC56X3_STATUS_REG, MMC56X3_STATUS_REG
  | MMC56X3_OUT_TEMP, MMC56X3_OUT_TEMP
  | MMC56X3_OUT_X_L, MMC56X3_OUT_X_L
  | MMC5603_ODR_REG, MMC5603_ODR_REG => true
  | _, _ => false
  end.

Record Target := {
  SENSOR_TYPE_MAGNETIC_FIELD : Z;
  sizeof_sensors_event_t : Z;
  double_format : fformat
}.

(** ** The bus, the clock and the trace *)

(** What the driver does to the outside world, in order. *)
Inductive IOEvent :=
| RegWrite (r : mmc56x3_register_t) (v : Z)
| BusRead (r : mmc56x3_register_t) (len : nat)
| DelayMicros (us : Z)
| DelayMillis (ms : Z)
| SerialPrintln (s : string)
| BusProbe (wire addr : Z).

(** Newest event first. *)
Definition Trace := list IOEvent.

(** The device answers a read with one byte per position, as a function of
    everything that happened before the read; the clock is read likewise. *)
Record Env := {
  device : Trace -> mmc56x3_register_t -> nat -> byte;
  clock : Trace -> Z
}.

(** ** The object *)

(** The fields of the class; [by_] is the field [by], a keyword here. *)
Record Adafruit_MMC5603 := {
  _sensorID : Z;
  x : Z;
  y : Z;
  z : Z;
  bx : Z;
  by_ : Z;
  bz : Z;
  _odr_cache : Z;
  _ctrl2_cache : Z
}.

Definition set_xyz (st : Adafruit_MMC5603) (vx vy vz : Z) : Adafruit_MMC5603 :=
  {| _sensorID := _sensorID st; x := vx; y := vy; z := vz;
     bx := bx st; by_ := by_ st; bz := bz st;
     _odr_cache := _odr_cache st; _ctrl2_cache := _ctrl2_cache st |}.

Definition set_bias (st : Adafruit_MMC5603) (vx vy vz : Z) : Adafruit_MMC5603 :=
  {| _sensorID := _sensorID st; x := x st; y := y st; z := z st;
     bx := vx; by_ := vy; bz := vz;
     _odr_cache := _odr_cache st; _ctrl2_cache := _ctrl2_cache st |}.

Definition set_odr_cache (st : Adafruit_MMC5603) (v : Z) : Adafruit_MMC5603 :=
  {| _sensorID := _sensorID st; x := x st; y := y st; z := z st;
     bx := bx st; by_ := by_ st; bz := bz st;
     _odr_cache := v; _ctrl2_cache := _ctrl2_cache st |}.

Definition set_ctrl2_cache (st : Adafruit_MMC5603) (v : Z) : Adafruit_MMC5603 :=
  {| _sensorID := _sensorID st; x := x st; y := y st; z := z st;
     bx := bx st; by_ := by_ st; bz := bz st;
     _odr_cache := _odr_cache st; _ctrl2_cache := v |}.

(** ** The monad: object state, trace, and divergence of a loop *)

Inductive outcome (A : Type) :=
| Done (a : A) (st : Adafruit_MMC5603) (tr : Trace)
| OutOfFuel.
Arguments Done {A} a st tr.
Arguments OutOfFuel {A}.

Definition M (A : Type) : Type :=
  Env -> Adafruit_MMC5603 -> Trace -> outcome A.

Definition ret {A} (a : A) : M A := fun _ st tr => Done a st tr.

Definition bind {A B} (c : M A) (k : A -> M B) : M B :=
  fun env st tr =>
    match c env st tr with
    | Done a st' tr' => k a env st' tr'
    | OutOfFuel => OutOfFuel
    end.

Declare Scope drv_scope.
Delimit Scope drv_scope with drv.
Notation "v <- c ;; k" := (bind c (fun v => k))
  (at level 61, c at next level, right associativity) : drv_scope.
Notation "c ;; k" := (bind c (fun _ => k))
  (at level 61, right associativity) : drv_scope.
Open Scope drv_scope.

Definition get {A} (f : Adafruit_MMC5603 -> A) : M A :=
  fun _ st tr => Done (f st) st tr.
Definition modify (f : Adafruit_MMC5603 -> Adafruit_MMC5603) : M unit :=
  fun _ st tr => Done tt (f st) tr.
Definition emit (e : IOEvent) : M unit :=
  fun _ st tr => Done tt st (e :: tr).
Definition spin {A} : M A := fun _ _ _ => OutOfFuel.

(** *** The library calls the driver makes *)

(** [Adafruit_BusIO_Register::write] on a one-byte register. *)
Definition reg_write (r : mmc56x3_register_t) (v : Z) : M unit :=
  emit (RegWrite r v).

(** [Adafruit_I2CDevice::write_then_read] of [len] bytes from register [r]. *)
Definition write_then_read (r : mmc56x3_register_t) (len : nat) : M (list byte) :=
  fun env st tr =>
    Done (map (device env tr r) (seq 0 len)) st (BusRead r len :: tr).

(** [Adafruit_BusIO_Register::read] on a one-byte register. *)
Definition reg_read (r : mmc56x3_register_t) : M Z :=
  buf <- write_then_read r 1 ;;
  ret (byte_val (nth 0 buf x00)).

(** [Adafruit_BusIO_RegisterBits::read]: [bits] bits of the register, from
    bit [shift] up. *)
Definition regbits_read (r : mmc56x3_register_t) (bits shift : Z) : M Z :=
  v <- reg_read r ;;
  ret (Z.land (Z.shiftr v shift) (Z.shiftl 1 bits - 1)).

Definition delay (ms : Z) : M unit := emit (DelayMillis ms).
Definition delayMicroseconds (us : Z) : M unit := emit (DelayMicros us).
Definition Serial_println (s : string) : M unit := emit (SerialPrintln s).

(** [millis()] is an [unsigned long]. *)
Definition millis : M Z :=
  fun env st tr => Done (to_uint32 (clock env tr)) st tr.

(** [while (!cond) body], with at most [fuel] evaluations of [cond]. *)
Fixpoint while_not (fuel : nat) (cond : M Z) (body : M unit) : M unit :=
  match fuel with
  | O => spin
  | S fuel' =>
      c <- cond ;;
      if c =? 0 then body ;; while_not fuel' cond body else ret tt
  end.

(** ** The driver *)

(** *** readXYZ (lines 46-59) *)

Definition buf_at (buf : list byte) (i : nat) : Z := byte_val (nth i buf x00).

(** One axis, in [uint32_t] arithmetic, stored to an [int32_t]. *)
Definition decode_axis (hi mid lo : Z) : Z :=
  to_int32
    (Z.lor (Z.lor (to_uint32 (Z.shiftl hi 12)) (to_uint32 (Z.shiftl mid 4)))
           (Z.shiftr lo 4)).

Definition readXYZ : M (Z * Z * Z) :=
  buffer <- write_then_read MMC56X3_OUT_X_L 9 ;;
  let x_out := decode_axis (buf_at buffer 0) (buf_at buffer 1) (buf_at buffer 6) in
  let y_out := decode_axis (buf_at buffer 2) (buf_at buffer 3) (buf_at buffer 7) in
  let z_out := decode_axis (buf_at buffer 4) (buf_at buffer 5) (buf_at buffer 8) in
  ret (x_out, y_out, z_out).

(** *** magnetSetReset (lines 205-210) *)

Definition magnetSetReset : M unit :=
  reg_write MMC56X3_CTRL0_REG 0x08 ;;
  delay 1 ;;
  reg_write MMC56X3_CTRL0_REG 0x10 ;;
  delay 1.

(** *** setContinuousMode, isContinuousMode (lines 218-234)

    [_ctrl2_cache] is a [uint8_t]: the compound assignments compute in [int]
    and store the low byte. *)

Definition setContinuousMode (mode : bool) : M unit :=
  (if mode then
     reg_write MMC56X3_CTRL0_REG 0x80 ;;
     modify (fun st =>
       set_ctrl2_cache st (to_uint8 (Z.lor (_ctrl2_cache st) 0x10)))
   else
     modify (fun st =>
       set_ctrl2_cache st (to_uint8 (Z.land (_ctrl2_cache st) (Z.lnot 0x10))))) ;;
  c <- get _ctrl2_cache ;;
  reg_write MMC56X3_CTRL2_REG c.

Definition isContinuousMode : M bool :=
  get (fun st => negb (Z.land (_ctrl2_cache st) 0x10 =? 0)).

(** *** reset (lines 193-200) *)

Definition reset : M unit :=
  reg_write MMC56X3_CTRL1_REG 0x80 ;;
  delay 20 ;;
  modify (fun st => set_odr_cache st 0) ;;
  modify (fun st => set_ctrl2_cache st 0) ;;
  magnetSetReset ;;
  setContinuousMode false.

(** *** calibrate (lines 135-187) *)

(** [(high + low) / 2] on [int32_t]: C++ division truncates toward zero. *)
Definition bias_mean (high low : Z) : Z :=
  to_int32 (Z.quot (to_int32 (high + low)) 2).

Definition mag_read_done : M Z := regbits_read MMC56X3_STATUS_REG 1 6.

Definition calibrate (fuel : nat) : M unit :=
  v <- reg_read MMC56X3_CTRL1_REG ;;
  let old_ctrl1 := to_uint8 v in
  old_ctrl2 <- get _ctrl2_cache ;;
  setContinuousMode false ;;
  reg_write MMC56X3_CTRL0_REG 0x08 ;;
  delayMicroseconds 500 ;;
  reg_write MMC56X3_CTRL1_REG 0x20 ;;
  reg_write MMC56X3_CTRL0_REG 0x01 ;;
  delayMicroseconds 6600 ;;
  while_not fuel mag_read_done
    (Serial_println "Not done reading!S" ;; delay 1) ;;
  high <- readXYZ ;;
  reg_write MMC56X3_CTRL0_REG 0x10 ;;
  delayMicroseconds 500 ;;
  reg_write MMC56X3_CTRL0_REG 0x01 ;;
  delayMicroseconds 6600 ;;
  while_not fuel mag_read_done
    (Serial_println "Not done reading!R" ;; delay 1) ;;
  low <- readXYZ ;;
  let '(x_high, y_high, z_high) := high in
  let '(x_low, y_low, z_low) := low in
  modify (fun st =>
    set_bias st (bias_mean x_high x_low) (bias_mean y_high y_low)
                (bias_mean z_high z_low)) ;;
  reg_write MMC56X3_CTRL1_REG old_ctrl1 ;;
  reg_write MMC56X3_CTRL2_REG old_ctrl2 ;;
  modify (fun st => set_ctrl2_cache st old_ctrl2) ;;
  magnetSetReset ;;
  m <- isContinuousMode ;;
  setContinuousMode m.

(** *** setDataRate, getDataRate (lines 313-339)

    [rate] is the [uint16_t] argument. *)

Definition setDataRate (rate : Z) : M unit :=
  let rate := if rate >? 255 then 1000 else rate in
  modify (fun st => set_odr_cache st rate) ;;
  if rate =? 1000 then
    reg_write MMC5603_ODR_REG 255 ;;
    modify (fun st =>
      set_ctrl2_cache st (to_uint8 (Z.lor (_ctrl2_cache st) 0x80))) ;;
    c <- get _ctrl2_cache ;;
    reg_write MMC56X3_CTRL2_REG c
  else
    reg_write MMC5603_ODR_REG rate ;;
    modify (fun st =>
      set_ctrl2_cache st (to_uint8 (Z.land (_ctrl2_cache st) (Z.lnot 0x80)))) ;;
    c <- get _ctrl2_cache ;;
    reg_write MMC56X3_CTRL2_REG c.

Definition getDataRate : M Z := get _ctrl2_cache.

(** *** readTemperature and getEvent (lines 243-305) *)

(** The part of [sensors_event_t] a magnetometer event uses. *)
Record sensors_event_t := {
  version : Z;
  sensor_id : Z;
  type : Z;
  reserved0 : Z;
  timestamp : Z;
  magnetic_x : spec_float;
  magnetic_y : spec_float;
  magnetic_z : spec_float;
  magnetic_status : Z
}.

(** [memset(event, 0, sizeof(sensors_event_t))]. *)
Definition zero_event : sensors_event_t :=
  {| version := 0; sensor_id := 0; type := 0; reserved0 := 0; timestamp := 0;
     magnetic_x := S754_zero false; magnetic_y := S754_zero false;
     magnetic_z := S754_zero false; magnetic_status := 0 |}.

Section OnTarget.

Variable tgt : Target.

Let dbl : fformat := double_format tgt.

(** [(float)v * 0.00625], stored to a [float]: the product is taken in
    [double]. *)
Definition scale_uT (v : Z) : spec_float :=
  fconv binary32
    (fmul dbl (fconv dbl (float_of_Z binary32 v)) (fliteral dbl 1 160)).

(** [float temp = raw; temp *= 0.8; temp -= 75;] *)
Definition temp_of_raw (raw : Z) : spec_float :=
  let temp := float_of_Z binary32 raw in
  let temp := fconv binary32 (fmul dbl (fconv dbl temp) (fliteral dbl 4 5)) in
  fsub binary32 temp (float_of_Z binary32 75).

Definition temp_read_done : M Z := regbits_read MMC56X3_STATUS_REG 1 7.

Definition readTemperature (fuel : nat) : M spec_float :=
  cm <- isContinuousMode ;;
  if cm then ret NAN
  else
    reg_write MMC56X3_CTRL0_REG 0x02 ;;
    while_not fuel temp_read_done (delay 5) ;;
    raw <- reg_read MMC56X3_OUT_TEMP ;;
    ret (temp_of_raw raw).

Definition getEvent (fuel : nat) : M (bool * sensors_event_t) :=
  let event := zero_event in
  cm <- isContinuousMode ;;
  (if negb cm then
     reg_write MMC56X3_CTRL0_REG 0x01 ;;
     while_not fuel mag_read_done (delay 5)
   else ret tt) ;;
  raw <- readXYZ ;;
  let '(rx, ry, rz) := raw in
  modify (fun st => set_xyz st rx ry rz) ;;
  modify (fun st =>
    set_xyz st (to_int32 (x st - bx st)) (to_int32 (y st - by_ st))
               (to_int32 (z st - bz st))) ;;
  sid <- get _sensorID ;;
  now <- millis ;;
  vx <- get x ;;
  vy <- get y ;;
  vz <- get z ;;
  ret (true,
       {| version := to_int32 (sizeof_sensors_event_t tgt);
          sensor_id := sid;
          type := to_int32 (SENSOR_TYPE_MAGNETIC_FIELD tgt);
          reserved0 := reserved0 event;
          timestamp := to_int32 now;
          magnetic_x := scale_uT vx;
          magnetic_y := scale_uT vy;
          magnetic_z := scale_uT vz;
          magnetic_status := magnetic_status event |}).

End OnTarget.

(** ** Traces of the busy-poll loops

    What the driver has put on the trace by the time a poll is made. *)

(** The trace after [k] polls that found the bit clear, each followed by the
    events [evs] of the loop body. *)
Fixpoint polled (evs : Trace) (tr : Trace) (k : nat) : Trace :=
  match k with
  | O => tr
  | S k' => evs ++ BusRead MMC56X3_STATUS_REG 1 :: polled evs tr k'
  end.

(** The one-bit field of the status register a poll made at [tr] sees. *)
Definition status_bit (env : Env) (shift : Z) (tr : Trace) : Z :=
  Z.land (Z.shiftr (byte_val (device env tr MMC56X3_STATUS_REG 0%nat)) shift)
         (Z.shiftl 1 1 - 1).

(** The bit is first seen set at poll number [k], counted from 0. *)
Definition done_at (env : Env) (shift : Z) (evs : Trace) (tr : Trace)
    (k : nat) : Prop :=
  (forall j, (j < k)%nat -> status_bit env shift (polled evs tr j) = 0)
  /\ status_bit env shift (polled evs tr k) <> 0.

(** The bit never reads as set, whatever happened before the read. *)
Definition never_done (env : Env) (shift : Z) : Prop :=
  forall tr, status_bit env shift tr = 0.

(** What readXYZ returns for a read made at [tr]. *)
Definition sample (env : Env) (tr : Trace) : Z * Z * Z :=
  let b i := byte_val (device env tr MMC56X3_OUT_X_L i) in
  (decode_axis (b 0%nat) (b 1%nat) (b 6%nat),
   decode_axis (b 2%nat) (b 3%nat) (b 7%nat),
   decode_axis (b 4%nat) (b 5%nat) (b 8%nat)).

Definition loop_set : Trace :=
  [DelayMillis 1; SerialPrintln "Not done reading!S"].
Definition loop_reset : Trace :=
  [DelayMillis 1; SerialPrintln "Not done reading!R"].

(** calibrate: the trace at the first poll of the first loop. *)
Definition cal_poll_high (st : Adafruit_MMC5603) (tr : Trace) : Trace :=
  DelayMicros 6600
  :: RegWrite MMC56X3_CTRL0_REG 0x01
  :: RegWrite MMC56X3_CTRL1_REG 0x20
  :: DelayMicros 500
  :: RegWrite MMC56X3_CTRL0_REG 0x08
  :: RegWrite MMC56X3_CTRL2_REG
       (to_uint8 (Z.land (_ctrl2_cache st) (Z.lnot 0x10)))
  :: BusRead MMC56X3_CTRL1_REG 1
  :: tr.

(** calibrate: the trace at the read of the high sample. *)
Definition cal_read_high (st : Adafruit_MMC5603) (tr : Trace) (k1 : nat)
    : Trace :=
  BusRead MMC56X3_STATUS_REG 1 :: polled loop_set (cal_poll_high st tr) k1.

(** calibrate: the trace at the first poll of the second loop. *)
Definition cal_poll_low (st : Adafruit_MMC5603) (tr : Trace) (k1 : nat)
    : Trace :=
  DelayMicros 6600
  :: RegWrite MMC56X3_CTRL0_REG 0x01
  :: DelayMicros 500
  :: RegWrite MMC56X3_CTRL0_REG 0x10
  :: BusRead MMC56X3_OUT_X_L 9
  :: cal_read_high st tr k1.

(** calibrate: the trace at the read of the low sample. *)
Definition cal_read_low (st : Adafruit_MMC5603) (tr : Trace) (k1 k2 : nat)
    : Trace :=
  BusRead MMC56X3_STATUS_REG 1 :: polled loop_reset (cal_poll_low st tr k1) k2.

(** calibrate: the events of the restore, newest first. *)
Definition cal_restore (old_ctrl1 old_ctrl2 : Z) : Trace :=
  RegWrite MMC56X3_CTRL2_REG old_ctrl2
  :: (if Z.testbit old_ctrl2 4 then [RegWrite MMC56X3_CTRL0_REG 0x80] else [])
  ++ [DelayMillis 1; RegWrite MMC56X3_CTRL0_REG 0x10;
      DelayMillis 1; RegWrite MMC56X3_CTRL0_REG 0x08;
      RegWrite MMC56X3_CTRL2_REG old_ctrl2;
      RegWrite MMC56X3_CTRL1_REG old_ctrl1].

(** The value last written to register [r], if any. *)
Fixpoint last_write (r : mmc56x3_register_t) (tr : Trace) : option Z :=
  match tr with
  | [] => None
  | RegWrite r' v :: tr' => if register_eqb r r' then Some v else last_write r tr'
  | _ :: tr' => last_write r tr'
  end.

(** ** The specification's rounding

    round(s / 2) as the specification words it: to the nearest integer,
    halves away from zero, as C's [round]. *)
Definition spec_round_half (s : Z) : Z :=
  if 0 <=? s then (s + 1) / 2 else - ((- s + 1) / 2).

Definition spec_rounded_mean (high low : Z) : Z := spec_round_half (high + low).

(** ** The cached control register 2

    The only values the driver ever leaves in the cache: the continuous
    enable bit and the high power bit, set or clear. *)
Definition ctrl2_reachable (c : Z) : Prop :=
  c = 0 \/ c = 0x10 \/ c = 0x80 \/ c = 0x90.

(** ** Traces of readTemperature and getEvent *)

Definition loop_wait : Trace := [DelayMillis 5].

(** readTemperature in one-shot mode: the trace at the first poll, and at
    the read of the temperature register after [k] polls found the bit
    clear. *)
Definition temp_poll (tr : Trace) : Trace :=
  RegWrite MMC56X3_CTRL0_REG 0x02 :: tr.

Definition temp_read (tr : Trace) (k : nat) : Trace :=
  BusRead MMC56X3_STATUS_REG 1 :: polled loop_wait (temp_poll tr) k.

(** getEvent in one-shot mode: the trace at the first poll, and at the read
    of the sample. *)
Definition event_poll (tr : Trace) : Trace :=
  RegWrite MMC56X3_CTRL0_REG 0x01 :: tr.

Definition event_read (tr : Trace) (k : nat) : Trace :=
  BusRead MMC56X3_STATUS_REG 1 :: polled loop_wait (event_poll tr) k.

(** The object and the event getEvent leaves when it reads the sample at
    trace [rd]. *)
Definition object_at (env : Env) (st : Adafruit_MMC5603) (rd : Trace)
    : Adafruit_MMC5603 :=
  let '(rx, ry, rz) := sample env rd in
  set_xyz st (to_int32 (rx - bx st)) (to_int32 (ry - by_ st))
             (to_int32 (rz - bz st)).

Definition event_at (tgt : Target) (env : Env) (st : Adafruit_MMC5603)
    (rd : Trace) : sensors_event_t :=
  let '(rx, ry, rz) := sample env rd in
  {| version := to_int32 (sizeof_sensors_event_t tgt);
     sensor_id := _sensorID st;
     type := to_int32 (SENSOR_TYPE_MAGNETIC_FIELD tgt);
     reserved0 := 0;
     timestamp :=
       to_int32 (to_uint32 (clock env (BusRead MMC56X3_OUT_X_L 9 :: rd)));
     magnetic_x := scale_uT tgt (to_int32 (rx - bx st));
     magnetic_y := scale_uT tgt (to_int32 (ry - by_ st));
     magnetic_z := scale_uT tgt (to_int32 (rz - bz st));
     magnetic_status := 0 |}.

(** ** Comparing a float with a rational

    [float_within v num den eps_num eps_den]: [v] is a number and
    |v - num/den| <= eps_num/eps_den, for positive [den] and [eps_den]. *)
Definition float_within (v : spec_float) (num den eps_num eps_den : Z) : bool :=
  match v with
  | S754_zero _ => Z.abs num * eps_den <=? eps_num * den
  | S754_finite s m e =>
      let sm := if s then Z.neg m else Z.pos m in
      if e <? 0
      then Z.abs (sm * den - num * 2 ^ (- e)) * eps_den
           <=? eps_num * den * 2 ^ (- e)
      else Z.abs (sm * 2 ^ e * den - num) * eps_den <=? eps_num * den
  | _ => false
  end.

(** [p] holds of the 2^depth integers from base * 2^depth on. *)
Fixpoint all_bits (depth : nat) (base : Z) (p : Z -> bool) : bool :=
  match depth with
  | O => p base
  | S d => all_bits d (2 * base) p && all_bits d (2 * base + 1) p
  end.

(** ** The value of a float as a real number

    What the rounding error of the scale is measured in. *)








(** ** Example devices and objects *)

(** The number of reads of register [r] on a trace. *)
Fixpoint count_reads (r : mmc56x3_register_t) (tr : Trace) : nat :=
  match tr with
  | [] => O
  | BusRead r' _ :: tr' =>
      if register_eqb r r' then S (count_reads r tr') else count_reads r tr'
  | _ :: tr' => count_reads r tr'
  end.

(** Milliseconds that the delays on a trace add up to. *)
Fixpoint elapsed_ms (tr : Trace) : Z :=
  match tr with
  | [] => 0
  | DelayMillis ms :: tr' => ms + elapsed_ms tr'
  | DelayMicros us :: tr' => us / 1000 + elapsed_ms tr'
  | _ :: tr' => elapsed_ms tr'
  end.

(** A device whose status register always reads [status] and whose other
    registers always read [data]. *)
Definition const_env (status data : byte) : Env :=
  {| device := fun _ r _ =>
       match r with MMC56X3_STATUS_REG => status | _ => data end;
     clock := elapsed_ms |}.

(** Both done bits set; every data byte 0x12. *)
Definition ready_env : Env := const_env xc0 x12.

(** No done bit is ever set. *)
Definition stuck_env : Env := const_env x00 x00.


(** A device that is always done, whose first XYZ read decodes to (1, 0, 0)
    and whose later ones decode to (2, 0, 0). *)
Definition odd_sum_env : Env :=
  {| device := fun tr r i =>
       match r with
       | MMC56X3_STATUS_REG => xc0
       | MMC56X3_OUT_X_L =>
           if (i =? 6)%nat
           then if (count_reads MMC56X3_OUT_X_L tr =? 0)%nat then x10 else x20
           else x00
       | _ => x00
       end;
     clock := elapsed_ms |}.

(** An object in continuous mode, and one in one-shot mode. *)
Definition continuous_object : Adafruit_MMC5603 :=
  {| _sensorID := 12345; x := 0; y := 0; z := 0;
     bx := 100; by_ := -200; bz := 300;
     _odr_cache := 100; _ctrl2_cache := 0x10 |}.

Definition oneshot_object : Adafruit_MMC5603 :=
  {| _sensorID := 12345; x := 0; y := 0; z := 0;
     bx := 100; by_ := -200; bz := 300;
     _odr_cache := 0; _ctrl2_cache := 0 |}.


Definition arm_target : Target :=
  {| SENSOR_TYPE_MAGNETIC_FIELD := 2; sizeof_sensors_event_t := 36;
     double_format := binary64 |}.

Definition avr_target : Target :=
  {| SENSOR_TYPE_MAGNETIC_FIELD := 2; sizeof_sensors_event_t := 36;
     double_format := binary32 |}.

(** ** The rest of the driver *)

(** *** begin (lines 93-125)

    begin is the one function that assigns the pointer members of the object:
    the device object and the four register objects.  They are kept in a
    record of their own, [None] for the null pointer; a device object is
    known by the address and the bus it was made for, a register object by
    its device and its register.  [new] is taken to succeed.

    [Adafruit_I2CDevice::begin] belongs to the bus library: it probes the
    address on the bus and answers whether a device acknowledged.  [detected]
    is that answer, a function of what happened on the bus so far.
    [MMC56X3_CHIP_ID] is a constant of the missing header. *)

(** [Adafruit_I2CDevice(i2c_address, wire)]. *)
Record Adafruit_I2CDevice := {
  _addr : Z;
  _wire : Z
}.

(** [Adafruit_BusIO_Register(i2c_dev, reg)]. *)
Record Adafruit_BusIO_Register := {
  _i2cdevice : Adafruit_I2CDevice;
  _address : mmc56x3_register_t
}.

Record Pointers := {
  i2c_dev : option Adafruit_I2CDevice;
  _ctrl0_reg : option Adafruit_BusIO_Register;
  _ctrl1_reg : option Adafruit_BusIO_Register;
  _ctrl2_reg : option Adafruit_BusIO_Register;
  _status_reg : option Adafruit_BusIO_Register
}.

(** [if (!i2c_dev) i2c_dev = new Adafruit_I2CDevice(i2c_address, wire)]: the
    device begin goes on with. *)
Definition device_for (p : Pointers) (i2c_address wire : Z)
    : Adafruit_I2CDevice :=
  match i2c_dev p with
  | Some dev => dev
  | None => {| _addr := i2c_address; _wire := wire |}
  end.

Definition set_i2c_dev (p : Pointers) (dev : Adafruit_I2CDevice) : Pointers :=
  {| i2c_dev := Some dev;
     _ctrl0_reg := _ctrl0_reg p; _ctrl1_reg := _ctrl1_reg p;
     _ctrl2_reg := _ctrl2_reg p; _status_reg := _status_reg p |}.

(** The four [delete]s and [new]s. *)
Definition renew_registers (p : Pointers) (dev : Adafruit_I2CDevice)
    : Pointers :=
  {| i2c_dev := i2c_dev p;
     _ctrl0_reg :=
       Some {| _i2cdevice := dev; _address := MMC56X3_CTRL0_REG |};
     _ctrl1_reg :=
       Some {| _i2cdevice := dev; _address := MMC56X3_CTRL1_REG |};
     _ctrl2_reg :=
       Some {| _i2cdevice := dev; _address := MMC56X3_CTRL2_REG |};
     _status_reg :=
       Some {| _i2cdevice := dev; _address := MMC56X3_STATUS_REG |} |}.

Section Begin.

Variable MMC56X3_CHIP_ID : Z.
Variable detected : Trace -> Adafruit_I2CDevice -> bool.

(** [i2c_dev->begin()]. *)
Definition i2c_begin (dev : Adafruit_I2CDevice) : M bool :=
  fun _ st tr =>
    Done (detected tr dev) st (BusProbe (_wire dev) (_addr dev) :: tr).

Definition begin (i2c_address wire : Z) (p : Pointers)
    : M (bool * Pointers) :=
  let dev := device_for p i2c_address wire in
  let p := set_i2c_dev p dev in
  ok <- i2c_begin dev ;;
  if negb ok then ret (false, p)
  else
    chip_id <- reg_read MMC56X3_PRODUCT_ID ;;
    if negb (chip_id =? MMC56X3_CHIP_ID) then ret (false, p)
    else
      let p := renew_registers p dev in
      reset ;; ret (true, p).

End Begin.

(** No pointer assigned yet. *)
Definition null_pointers : Pointers :=
  {| i2c_dev := None; _ctrl0_reg := None; _ctrl1_reg := None;
     _ctrl2_reg := None; _status_reg := None |}.

(** A bus on which only address 0x30 acknowledges. *)
Definition only_0x30 : Trace -> Adafruit_I2CDevice -> bool :=
  fun _ dev => _addr dev =? 0x30.

Definition at_0x30 : Adafruit_I2CDevice := {| _addr := 0x30; _wire := 0 |}.
Definition at_0x31 : Adafruit_I2CDevice := {| _addr := 0x31; _wire := 0 |}.

(** *** getSensor (lines 347-361) *)

Module sensor_t.
Record t := {
  name : list ascii;
  version : Z;
  sensor_id : Z;
  type : Z;
  max_value : spec_float;
  min_value : spec_float;
  resolution : spec_float;
  min_delay : Z
}.
End sensor_t.

(** [strncpy(dst, src, n)]: the first [n] characters of [src] padded with
    NULs, over the first [n] characters of [dst]. *)
Definition strncpy (dst : list ascii) (src : string) (n : nat) : list ascii :=
  firstn n (list_ascii_of_string src ++ repeat zero n) ++ skipn n dst.

(** [buf[i] = c], for [i] inside the array. *)
Definition store_char (buf : list ascii) (i : nat) (c : ascii) : list ascii :=
  firstn i buf ++ c :: skipn (S i) buf.

(** The string a character array holds: the characters before the first
    NUL. *)
Fixpoint c_str (buf : list ascii) : string :=
  match buf with
  | [] => EmptyString
  | c :: rest => if Ascii.eqb c zero then EmptyString else String c (c_str rest)
  end.

Section GetSensor.

Variable tgt : Target.
(** [sizeof(sensor->name)]. *)
Variable name_size : nat.

Definition getSensor : M sensor_t.t :=
  let name0 := repeat zero name_size in
  let name1 := strncpy name0 "MMC5603" (name_size - 1) in
  let name2 := store_char name1 (name_size - 1) zero in
  sid <- get _sensorID ;;
  ret {| sensor_t.name := name2;
         sensor_t.version := 1;
         sensor_t.sensor_id := sid;
         sensor_t.type := to_int32 (SENSOR_TYPE_MAGNETIC_FIELD tgt);
         sensor_t.min_delay := 0;
         sensor_t.max_value := float_of_Z binary32 3000;
         sensor_t.min_value := float_of_Z binary32 (-3000);
         sensor_t.resolution :=
           fconv binary32 (fliteral (double_format tgt) 1 160) |}.

End GetSensor.

(** ** Sequences of calls *)

Inductive call :=
| CallReset
| CallMagnetSetReset
| CallCalibrate
| CallSetContinuousMode (mode : bool)
| CallIsContinuousMode
| CallReadTemperature
| CallGetEvent
| CallSetDataRate (rate : Z)
| CallGetDataRate.

Definition run_call (tgt : Target) (fuel : nat) (c : call) : M unit :=
  match c with
  | CallReset => reset
  | CallMagnetSetReset => magnetSetReset
  | CallCalibrate => calibrate fuel
  | CallSetContinuousMode mode => setContinuousMode mode
  | CallIsContinuousMode => isContinuousMode ;; ret tt
  | CallReadTemperature => readTemperature tgt fuel ;; ret tt
  | CallGetEvent => getEvent tgt fuel ;; ret tt
  | CallSetDataRate rate => setDataRate rate
  | CallGetDataRate => getDataRate ;; ret tt
  end.

Fixpoint run_calls (tgt : Target) (fuel : nat) (cs : list call) : M unit :=
  match cs with
  | [] => ret tt
  | c :: rest => run_call tgt fuel c ;; run_calls tgt fuel rest
  end.

(** The cache and the device agree: the cache holds only the two bits the
    driver uses, it is the value last written to control register 2, and its
    high power bit is set exactly when the cached rate is 1000. *)
Definition coherent (st : Adafruit_MMC5603) (tr : Trace) : Prop :=
  ctrl2_reachable (_ctrl2_cache st)
  /\ last_write MMC56X3_CTRL2_REG tr = Some (_ctrl2_cache st)
  /\ Z.testbit (_ctrl2_cache st) 7 = (_odr_cache st =? 1000).

(** ** More statement vocabulary *)

(** The sign bit of a float; NaN has none here. *)
Definition sign_bit (v : spec_float) : bool :=
  match v with
  | S754_zero s | S754_infinity s | S754_finite s _ _ => s
  | S754_nan => false
  end.

(** Every element is below every later one. *)
Fixpoint increasing (l : list spec_float) : bool :=
  match l with
  | [] => true
  | v :: rest =>
      forallb (fun w => SFltb v w) rest && increasing rest
  end.

(** The bytes that decode to the 20-bit value [v]. *)
Definition encode_axis (v : Z) : Z * Z * Z :=
  (Z.shiftr v 12, Z.land (Z.shiftr v 4) 0xFF, Z.shiftl (Z.land v 0xF) 4).

(** What readTemperature gives for each of the 256 register bytes, in
    order. *)
Definition temp_table (tgt : Target) : list spec_float :=
  map (fun n => temp_of_raw tgt (Z.of_nat n)) (seq 0 256).

(** The register writes on a trace, newest first. *)
Fixpoint writes_of (tr : Trace) : Trace :=
  match tr with
  | [] => []
  | RegWrite r v :: tr' => RegWrite r v :: writes_of tr'
  | _ :: tr' => writes_of tr'
  end.

(** Calls used as an example of a session. *)
Definition example_session : list call :=
  [CallSetDataRate 300; CallSetContinuousMode true; CallCalibrate;
   CallGetEvent; CallReadTemperature; CallSetDataRate 50; CallGetDataRate].

(** A device that reports done until the first XYZ read and never after. *)
Definition once_env : Env :=
  {| device := fun tr r _ =>
       match r with
       | MMC56X3_STATUS_REG =>
           if (count_reads MMC56X3_OUT_X_L tr =? 0)%nat then xc0 else x00
       | _ => x12
       end;
     clock := elapsed_ms |}.

(** * Properties *)

(** ** Integers and bits *)

Lemma byte_val_range (b : byte) : 0 <= byte_val b < 2 ^ 8.
Proof.
  unfold byte_val. pose proof (Byte.to_N_bounded b) as H.
  change (2 ^ 8) with 256. lia.
Qed.

Lemma to_uint8_id v : is_uint8 v -> to_uint8 v = v.
Proof. unfold is_uint8, to_uint8. intros H. apply Z.mod_small. exact H. Qed.

Lemma to_uint32_id v : 0 <= v < 2 ^ 32 -> to_uint32 v = v.
Proof. unfold to_uint32. intros H. apply Z.mod_small. exact H. Qed.

Lemma to_int32_id v : is_int32 v -> to_int32 v = v.
Proof.
  unfold is_int32, to_int32. intros H.
  rewrite Z.mod_small; lia.
Qed.

Lemma to_uint8_range v : is_uint8 (to_uint8 v).
Proof. unfold is_uint8, to_uint8. apply Z.mod_pos_bound. reflexivity. Qed.

Lemma testbit_above v k n :
  0 <= v < 2 ^ k -> 0 <= k <= n -> Z.testbit v n = false.
Proof.
  intros [Hv Hlt] Hk.
  destruct (Z.eq_dec v 0) as [->|Hnz]; [apply Z.testbit_0_l|].
  apply Z.bits_above_log2; [exact Hv|].
  assert (Z.log2 v < k) by (apply Z.log2_lt_pow2; lia). lia.
Qed.

(** Bits that do not overlap add up. *)
Lemma lor_disjoint_add a b k :
  0 <= k -> 0 <= b < 2 ^ k -> Z.lor (Z.shiftl a k) b = a * 2 ^ k + b.
Proof.
  intros Hk Hb.
  assert (Hland : Z.land (Z.shiftl a k) b = 0).
  { apply Z.bits_inj'. intros n Hn.
    rewrite Z.land_spec, Z.bits_0.
    destruct (Z.lt_ge_cases n k) as [Hlt|Hge].
    - rewrite Z.shiftl_spec_low by exact Hlt. reflexivity.
    - rewrite (testbit_above b k n) by lia. apply andb_false_r. }
  rewrite <- Z.lxor_lor by exact Hland.
  rewrite <- Z.add_nocarry_lxor by exact Hland.
  rewrite Z.shiftl_mul_pow2 by exact Hk. reflexivity.
Qed.

(** The decode of one axis, without the C types. *)
Lemma decode_axis_bytes hi mid lo :
  is_uint8 hi -> is_uint8 mid -> is_uint8 lo ->
  decode_axis hi mid lo
  = Z.lor (Z.lor (Z.shiftl hi 12) (Z.shiftl mid 4)) (Z.shiftr lo 4)
  /\ decode_axis hi mid lo = hi * 4096 + mid * 16 + lo / 16
  /\ 0 <= decode_axis hi mid lo < 2 ^ 20.
Proof.
  unfold is_uint8. intros Hhi Hmid Hlo.
  assert (Hq : 0 <= lo / 16 < 16).
  { split; [apply Z.div_pos; lia|apply Z.div_lt_upper_bound; lia]. }
  assert (Hsum :
    Z.lor (Z.lor (Z.shiftl hi 12) (Z.shiftl mid 4)) (Z.shiftr lo 4)
    = hi * 4096 + mid * 16 + lo / 16).
  { rewrite (Z.shiftr_div_pow2 lo 4) by lia. change (2 ^ 4) with 16.
    replace (Z.shiftl hi 12) with (Z.shiftl (Z.shiftl hi 8) 4)
      by (rewrite Z.shiftl_shiftl by lia; reflexivity).
    rewrite <- Z.shiftl_lor.
    rewrite (lor_disjoint_add _ (lo / 16) 4) by (change (2 ^ 4) with 16; lia).
    rewrite (lor_disjoint_add hi mid 8) by lia.
    change (2 ^ 8) with 256. change (2 ^ 4) with 16. lia. }
  assert (Hdec : decode_axis hi mid lo
                 = Z.lor (Z.lor (Z.shiftl hi 12) (Z.shiftl mid 4)) (Z.shiftr lo 4)).
  { unfold decode_axis.
    rewrite (to_uint32_id (Z.shiftl hi 12))
      by (rewrite Z.shiftl_mul_pow2 by lia;
          change (2 ^ 12) with 4096; change (2 ^ 32) with 4294967296; lia).
    rewrite (to_uint32_id (Z.shiftl mid 4))
      by (rewrite Z.shiftl_mul_pow2 by lia;
          change (2 ^ 4) with 16; change (2 ^ 32) with 4294967296; lia).
    apply to_int32_id. rewrite Hsum. unfold is_int32.
    change (2 ^ 31) with 2147483648. lia. }
  split; [exact Hdec|]. rewrite Hdec, Hsum.
  split; [reflexivity|]. change (2 ^ 20) with 1048576. lia.
Qed.

(** ** readXYZ *)

(** C1.  Whatever nine bytes the device returns for the read that starts at
    the X output register, readXYZ issues that one read and returns, per axis,
    (high << 12) | (mid << 4) | (low >> 4), a value below 2^20, with X taken
    from bytes 0, 1, 6, Y from bytes 2, 3, 7 and Z from bytes 4, 5, 8. *)
Theorem readXYZ_decodes_20bit (env : Env) (st : Adafruit_MMC5603) (tr : Trace) :
  let b i := byte_val (device env tr MMC56X3_OUT_X_L i) in
  let axis hi mid lo :=
    Z.lor (Z.lor (Z.shiftl hi 12) (Z.shiftl mid 4)) (Z.shiftr lo 4) in
  readXYZ env st tr
  = Done (axis (b 0%nat) (b 1%nat) (b 6%nat),
          axis (b 2%nat) (b 3%nat) (b 7%nat),
          axis (b 4%nat) (b 5%nat) (b 8%nat))
         st (BusRead MMC56X3_OUT_X_L 9 :: tr)
  /\ forall i j k, 0 <= axis (b i) (b j) (b k) < 2 ^ 20.
Proof.
  intros b axis.
  assert (Hax : forall i j k,
    decode_axis (b i) (b j) (b k) = axis (b i) (b j) (b k)
    /\ 0 <= axis (b i) (b j) (b k) < 2 ^ 20).
  { intros i j k.
    destruct (decode_axis_bytes (b i) (b j) (b k)) as (H1 & _ & H3);
      try apply byte_val_range.
    split; [exact H1|]. unfold axis. rewrite <- H1. exact H3. }
  split.
  - change (readXYZ env st tr)
      with (Done (decode_axis (b 0%nat) (b 1%nat) (b 6%nat),
                  decode_axis (b 2%nat) (b 3%nat) (b 7%nat),
                  decode_axis (b 4%nat) (b 5%nat) (b 8%nat))
                 st (BusRead MMC56X3_OUT_X_L 9 :: tr)).
    rewrite (proj1 (Hax 0 1 6)%nat), (proj1 (Hax 2 3 7)%nat),
      (proj1 (Hax 4 5 8)%nat).
    reflexivity.
  - intros i j k. apply (Hax i j k).
Qed.

(** ** The cached control register 2 *)

Lemma land_pow2 v k :
  0 <= k -> Z.land v (2 ^ k) = if Z.testbit v k then 2 ^ k else 0.
Proof.
  intros Hk. apply Z.bits_inj'. intros n Hn.
  rewrite Z.land_spec, Z.pow2_bits_eqb by exact Hk.
  destruct (Z.eqb_spec k n) as [->|Hne].
  - rewrite andb_true_r. destruct (Z.testbit v n) eqn:E.
    + rewrite Z.pow2_bits_true by exact Hn. reflexivity.
    + rewrite Z.bits_0. reflexivity.
  - rewrite andb_false_r. destruct (Z.testbit v k).
    + rewrite Z.pow2_bits_false by exact Hne. reflexivity.
    + rewrite Z.bits_0. reflexivity.
Qed.

(** The test [v & mask] of a C condition, for a one-bit mask. *)
Lemma bit_test v k :
  0 <= k -> negb (Z.land v (2 ^ k) =? 0) = Z.testbit v k.
Proof.
  intros Hk. rewrite land_pow2 by exact Hk.
  destruct (Z.testbit v k); [|reflexivity].
  assert (0 < 2 ^ k) by (apply Z.pow_pos_nonneg; lia).
  destruct (Z.eqb_spec (2 ^ k) 0); [lia|reflexivity].
Qed.

Lemma set_bit_spec v k n :
  0 <= k < 8 -> 0 <= n ->
  Z.testbit (to_uint8 (Z.lor v (2 ^ k))) n
  = if n =? k then true else (n <? 8) && Z.testbit v n.
Proof.
  intros Hk Hn. unfold to_uint8.
  destruct (Z.ltb_spec n 8) as [Hlt|Hge].
  - rewrite Z.mod_pow2_bits_low by lia.
    rewrite Z.lor_spec, Z.pow2_bits_eqb by lia.
    rewrite (Z.eqb_sym k n). destruct (n =? k); [apply orb_true_r|].
    rewrite orb_false_r. reflexivity.
  - rewrite Z.mod_pow2_bits_high by lia.
    destruct (Z.eqb_spec n k); [lia|reflexivity].
Qed.

Lemma clear_bit_spec v k n :
  0 <= k < 8 -> 0 <= n ->
  Z.testbit (to_uint8 (Z.land v (Z.lnot (2 ^ k)))) n
  = if n =? k then false else (n <? 8) && Z.testbit v n.
Proof.
  intros Hk Hn. unfold to_uint8.
  destruct (Z.ltb_spec n 8) as [Hlt|Hge].
  - rewrite Z.mod_pow2_bits_low by lia.
    rewrite Z.land_spec, Z.lnot_spec, Z.pow2_bits_eqb by lia.
    rewrite (Z.eqb_sym k n). destruct (n =? k); [apply andb_false_r|].
    rewrite andb_true_r. reflexivity.
  - rewrite Z.mod_pow2_bits_high by lia.
    destruct (Z.eqb_spec n k); [lia|reflexivity].
Qed.

(** On a byte, setting a set bit or clearing a clear bit changes nothing. *)
Lemma set_bit_idem v k :
  0 <= k < 8 -> is_uint8 v -> Z.testbit v k = true ->
  to_uint8 (Z.lor v (2 ^ k)) = v.
Proof.
  intros Hk Hv Hb. apply Z.bits_inj'. intros n Hn.
  rewrite set_bit_spec by lia.
  destruct (Z.eqb_spec n k) as [->|Hne]; [symmetry; exact Hb|].
  destruct (Z.ltb_spec n 8) as [Hlt|Hge]; [reflexivity|].
  symmetry. apply (testbit_above v 8 n); [exact Hv|lia].
Qed.

Lemma clear_bit_idem v k :
  0 <= k < 8 -> is_uint8 v -> Z.testbit v k = false ->
  to_uint8 (Z.land v (Z.lnot (2 ^ k))) = v.
Proof.
  intros Hk Hv Hb. apply Z.bits_inj'. intros n Hn.
  rewrite clear_bit_spec by lia.
  destruct (Z.eqb_spec n k) as [->|Hne]; [symmetry; exact Hb|].
  destruct (Z.ltb_spec n 8) as [Hlt|Hge]; [reflexivity|].
  symmetry. apply (testbit_above v 8 n); [exact Hv|lia].
Qed.

Lemma isContinuousMode_run (env : Env) (st : Adafruit_MMC5603) (tr : Trace) :
  isContinuousMode env st tr = Done (Z.testbit (_ctrl2_cache st) 4) st tr.
Proof.
  unfold isContinuousMode, get. f_equal.
  apply (bit_test (_ctrl2_cache st) 4). lia.
Qed.

Lemma setContinuousMode_run (mode : bool) (env : Env) (st : Adafruit_MMC5603)
    (tr : Trace) :
  setContinuousMode mode env st tr
  = if mode then
      let c := to_uint8 (Z.lor (_ctrl2_cache st) (2 ^ 4)) in
      Done tt (set_ctrl2_cache st c)
           (RegWrite MMC56X3_CTRL2_REG c :: RegWrite MMC56X3_CTRL0_REG 0x80 :: tr)
    else
      let c := to_uint8 (Z.land (_ctrl2_cache st) (Z.lnot (2 ^ 4))) in
      Done tt (set_ctrl2_cache st c) (RegWrite MMC56X3_CTRL2_REG c :: tr).
Proof. destruct mode; reflexivity. Qed.

Lemma setDataRate_run (rate : Z) (env : Env) (st : Adafruit_MMC5603)
    (tr : Trace) :
  setDataRate rate env st tr
  = if rate >? 255 then
      let c := to_uint8 (Z.lor (_ctrl2_cache st) (2 ^ 7)) in
      Done tt (set_ctrl2_cache (set_odr_cache st 1000) c)
           (RegWrite MMC56X3_CTRL2_REG c :: RegWrite MMC5603_ODR_REG 255 :: tr)
    else
      let c := to_uint8 (Z.land (_ctrl2_cache st) (Z.lnot (2 ^ 7))) in
      Done tt (set_ctrl2_cache (set_odr_cache st rate) c)
           (RegWrite MMC56X3_CTRL2_REG c :: RegWrite MMC5603_ODR_REG rate :: tr).
Proof.
  unfold setDataRate.
  destruct (Z.gtb_spec rate 255) as [Hgt|Hle].
  - reflexivity.
  - destruct (Z.eqb_spec rate 1000) as [->|Hne]; [lia|reflexivity].
Qed.

Lemma ctrl2_reachable_uint8 c : ctrl2_reachable c -> is_uint8 c.
Proof.
  unfold ctrl2_reachable, is_uint8. change (2 ^ 8) with 256. lia.
Qed.

Lemma reset_ctrl2_reachable (env : Env) (st : Adafruit_MMC5603) (tr : Trace) :
  exists st' tr',
    reset env st tr = Done tt st' tr'
    /\ _ctrl2_cache st' = 0 /\ _odr_cache st' = 0.
Proof. eexists. eexists. split; [reflexivity|]. split; reflexivity. Qed.

Lemma setContinuousMode_ctrl2_reachable (mode : bool) (env : Env)
    (st : Adafruit_MMC5603) (tr : Trace) :
  ctrl2_reachable (_ctrl2_cache st) ->
  exists st' tr',
    setContinuousMode mode env st tr = Done tt st' tr'
    /\ ctrl2_reachable (_ctrl2_cache st').
Proof.
  intros H. rewrite setContinuousMode_run.
  destruct mode; eexists; eexists; (split; [reflexivity|]);
    unfold ctrl2_reachable in *; simpl;
    destruct H as [-> | [-> | [-> | ->]]]; vm_compute; auto.
Qed.

Lemma setDataRate_ctrl2_reachable (rate : Z) (env : Env)
    (st : Adafruit_MMC5603) (tr : Trace) :
  ctrl2_reachable (_ctrl2_cache st) ->
  exists st' tr',
    setDataRate rate env st tr = Done tt st' tr'
    /\ ctrl2_reachable (_ctrl2_cache st').
Proof.
  intros H. rewrite setDataRate_run.
  destruct (rate >? 255); eexists; eexists; (split; [reflexivity|]);
    unfold ctrl2_reachable in *; simpl;
    destruct H as [-> | [-> | [-> | ->]]]; vm_compute; auto.
Qed.

(** C7.  After setContinuousMode(m), isContinuousMode() returns m; and
    isContinuousMode is bit 0x10 of the cache whatever the device would
    answer, leaving the trace as it was: it reads nothing from the bus. *)
Theorem setContinuousMode_then_isContinuousMode (mode : bool) (env : Env)
    (st : Adafruit_MMC5603) (tr : Trace) :
  (exists st' c,
     (setContinuousMode mode ;; isContinuousMode) env st tr
     = Done mode st'
         (RegWrite MMC56X3_CTRL2_REG c
          :: (if mode then [RegWrite MMC56X3_CTRL0_REG 0x80] else []) ++ tr))
  /\ (forall env' st0 tr0,
        isContinuousMode env' st0 tr0
        = Done (negb (Z.land (_ctrl2_cache st0) 0x10 =? 0)) st0 tr0).
Proof.
  split; [|reflexivity].
  unfold bind. rewrite setContinuousMode_run.
  destruct mode; cbv beta iota zeta; rewrite isContinuousMode_run;
    eexists; eexists; simpl app; f_equal.
  - cbn [_ctrl2_cache set_ctrl2_cache set_odr_cache]. rewrite (set_bit_spec _ 4 4) by lia. reflexivity.
  - cbn [_ctrl2_cache set_ctrl2_cache set_odr_cache]. rewrite (clear_bit_spec _ 4 4) by lia. reflexivity.
Qed.

(** C10.  setDataRate changes no bit of the cached control register 2 other
    than the high power bit 0x80; so isContinuousMode() asked before and
    after a setDataRate call gives the same answer. *)
Theorem setDataRate_keeps_other_ctrl2_bits (rate : Z) (env : Env)
    (st : Adafruit_MMC5603) (tr : Trace) :
  is_uint8 (_ctrl2_cache st) ->
  (exists st' tr',
     setDataRate rate env st tr = Done tt st' tr'
     /\ forall n, n <> 7 ->
          Z.testbit (_ctrl2_cache st') n = Z.testbit (_ctrl2_cache st) n)
  /\ (exists c st' tr',
        (before <- isContinuousMode ;;
         setDataRate rate ;;
         after <- isContinuousMode ;;
         ret (before, after)) env st tr = Done (c, c) st' tr').
Proof.
  intros Hc.
  assert (Hbits : forall (hp : bool) n, n <> 7 ->
    Z.testbit (if hp then to_uint8 (Z.lor (_ctrl2_cache st) (2 ^ 7))
               else to_uint8 (Z.land (_ctrl2_cache st) (Z.lnot (2 ^ 7)))) n
    = Z.testbit (_ctrl2_cache st) n).
  { intros hp n Hn.
    destruct (Z.lt_ge_cases n 0) as [Hneg|Hpos].
    { rewrite !Z.testbit_neg_r by exact Hneg. reflexivity. }
    destruct hp; [rewrite set_bit_spec by lia|rewrite clear_bit_spec by lia];
      (destruct (Z.eqb_spec n 7); [contradiction|]);
      (destruct (Z.ltb_spec n 8) as [Hlt|Hge]; [reflexivity|]);
      symmetry; apply (testbit_above _ 8 n); [exact Hc|lia|exact Hc|lia]. }
  split.
  - rewrite setDataRate_run.
    destruct (rate >? 255); eexists; eexists; (split; [reflexivity|]);
      intros n Hn; cbv zeta; cbn [_ctrl2_cache set_ctrl2_cache set_odr_cache].
    + apply (Hbits true n Hn).
    + apply (Hbits false n Hn).
  - unfold bind. rewrite isContinuousMode_run, setDataRate_run.
    destruct (rate >? 255); cbv beta iota zeta; rewrite isContinuousMode_run;
      unfold ret; cbn [_ctrl2_cache set_ctrl2_cache set_odr_cache].
    + rewrite (Hbits true 4) by lia. eexists; eexists; eexists. reflexivity.
    + rewrite (Hbits false 4) by lia. eexists; eexists; eexists. reflexivity.
Qed.


(** C4.  getDataRate returns the cached control register 2 byte, whatever
    rate was stored.  So with the continuous bit clear, setDataRate(r) for r
    from 1 to 255 stores r in the rate cache and getDataRate() then returns 0,
    not r; and for r above 255 it returns a byte, not r either. *)
Theorem getDataRate_returns_ctrl2_cache (r : Z) (env : Env)
    (st : Adafruit_MMC5603) (tr : Trace) :
  1 <= r <= 255 ->
  ctrl2_reachable (_ctrl2_cache st) ->
  Z.land (_ctrl2_cache st) 0x10 = 0 ->
  (forall env0 st0 tr0,
     getDataRate env0 st0 tr0 = Done (_ctrl2_cache st0) st0 tr0)
  /\ (exists st' tr',
        (setDataRate r ;; getDataRate) env st tr = Done 0 st' tr'
        /\ _odr_cache st' = r /\ 0 <> r)
  /\ (forall r', 255 < r' ->
        exists v st' tr',
          (setDataRate r' ;; getDataRate) env st tr = Done v st' tr'
          /\ _odr_cache st' = 1000 /\ v <> r').
Proof.
  intros Hr Hreach Hcm.
  split; [reflexivity|]. split.
  - unfold bind. rewrite setDataRate_run.
    assert (E : (r >? 255) = false) by (rewrite Z.gtb_ltb; apply Z.ltb_ge; lia).
    rewrite E. cbv beta iota zeta. unfold getDataRate, get.
    cbn [_ctrl2_cache _odr_cache set_ctrl2_cache set_odr_cache].
    assert (Hz : to_uint8 (Z.land (_ctrl2_cache st) (Z.lnot (2 ^ 7))) = 0).
    { destruct Hreach as [H | [H | [H | H]]]; rewrite H in *;
        try reflexivity; vm_compute in Hcm; discriminate Hcm. }
    rewrite Hz. eexists. eexists. split; [reflexivity|].
    split; [reflexivity|lia].
  - intros r' Hr'. unfold bind. rewrite setDataRate_run.
    assert (E : (r' >? 255) = true) by (apply Z.gtb_lt; lia).
    rewrite E. cbv beta iota zeta. unfold getDataRate, get.
    cbn [_ctrl2_cache _odr_cache set_ctrl2_cache set_odr_cache].
    eexists. eexists. eexists. split; [reflexivity|].
    split; [reflexivity|].
    pose proof (to_uint8_range (Z.lor (_ctrl2_cache st) (2 ^ 7))) as Hb.
    unfold is_uint8 in Hb. change (2 ^ 8) with 256 in Hb. lia.
Qed.

(** ** The busy-poll loops *)

Lemma regbits_read_status (shift : Z) (env : Env) (st : Adafruit_MMC5603)
    (tr : Trace) :
  regbits_read MMC56X3_STATUS_REG 1 shift env st tr
  = Done (status_bit env shift tr) st (BusRead MMC56X3_STATUS_REG 1 :: tr).
Proof. reflexivity. Qed.

Lemma polled_shift (evs tr : Trace) (k : nat) :
  polled evs (evs ++ BusRead MMC56X3_STATUS_REG 1 :: tr) k
  = polled evs tr (S k).
Proof.
  induction k as [|k IH]; [reflexivity|].
  cbn [polled] in *. rewrite IH. reflexivity.
Qed.

Section Loop.

Variables (env : Env) (shift : Z) (evs : Trace) (body : M unit).
Hypothesis body_emits :
  forall st tr, body env st tr = Done tt st (evs ++ tr).

(** A loop that sees the bit set at poll [k] ends there, given fuel for
    [k + 1] polls. *)
Lemma while_not_completes (st : Adafruit_MMC5603) (fuel : nat) :
  forall (k : nat) (tr : Trace),
    (k < fuel)%nat ->
    done_at env shift evs tr k ->
    while_not fuel (regbits_read MMC56X3_STATUS_REG 1 shift) body env st tr
    = Done tt st (BusRead MMC56X3_STATUS_REG 1 :: polled evs tr k).
Proof.
  induction fuel as [|fuel IH]; intros k tr Hk [Hbefore Hat]; [lia|].
  cbn [while_not]. unfold bind at 1.
  rewrite regbits_read_status.
  destruct k as [|k].
  - cbn [polled] in Hat. apply Z.eqb_neq in Hat. rewrite Hat. reflexivity.
  - assert (H0 : status_bit env shift tr = 0) by (apply (Hbefore 0%nat); lia).
    rewrite (proj2 (Z.eqb_eq _ _) H0).
    unfold bind. rewrite body_emits.
    rewrite (IH k) by
      first [lia
            |split;
             [intros j Hj; rewrite polled_shift; apply Hbefore; lia
             |rewrite polled_shift; exact Hat]].
    rewrite polled_shift. reflexivity.
Qed.

(** A loop that returned saw the bit set at some poll within its fuel. *)
Lemma while_not_returned (st : Adafruit_MMC5603) (fuel : nat) :
  forall (tr : Trace) (u : unit) (st' : Adafruit_MMC5603) (tr' : Trace),
    while_not fuel (regbits_read MMC56X3_STATUS_REG 1 shift) body env st tr = Done u st' tr' ->
    exists k, (k < fuel)%nat /\ done_at env shift evs tr k.
Proof.
  induction fuel as [|fuel IH]; intros tr u st' tr' H; [discriminate H|].
  cbn [while_not] in H. unfold bind at 1 in H.
  rewrite regbits_read_status in H.
  destruct (Z.eqb_spec (status_bit env shift tr) 0) as [Hz|Hnz].
  - unfold bind in H. rewrite body_emits in H.
    apply IH in H. destruct H as (k & Hk & Hbefore & Hat).
    exists (S k). split; [lia|]. split.
    + intros [|j] Hj; [exact Hz|].
      rewrite <- polled_shift. apply Hbefore. lia.
    + rewrite <- polled_shift. exact Hat.
  - exists 0%nat. split; [lia|]. split; [intros j Hj; lia|exact Hnz].
Qed.

(** A loop exhausts its fuel when none of the polls it pays for sees the
    bit set. *)
Lemma while_not_spins (st : Adafruit_MMC5603) (fuel : nat) :
  forall tr : Trace,
    (forall j, (j < fuel)%nat -> status_bit env shift (polled evs tr j) = 0) ->
    while_not fuel (regbits_read MMC56X3_STATUS_REG 1 shift) body env st tr = OutOfFuel.
Proof.
  induction fuel as [|fuel IH]; intros tr Hz; [reflexivity|].
  cbn [while_not]. unfold bind at 1.
  rewrite regbits_read_status.
  assert (H0 : status_bit env shift tr = 0) by (apply (Hz 0%nat); lia).
  rewrite (proj2 (Z.eqb_eq _ _) H0).
  unfold bind. rewrite body_emits. apply IH.
  intros j Hj. rewrite polled_shift. apply Hz. lia.
Qed.

End Loop.

(** ** Running the monad *)

Lemma bind_done {A B : Type} (c : M A) (k : A -> M B) (env : Env)
    (st : Adafruit_MMC5603) (tr : Trace) (a : A) (st' : Adafruit_MMC5603)
    (tr' : Trace) :
  c env st tr = Done a st' tr' -> bind c k env st tr = k a env st' tr'.
Proof. intros H. unfold bind. rewrite H. reflexivity. Qed.

Lemma bind_spin {A B : Type} (c : M A) (k : A -> M B) (env : Env)
    (st : Adafruit_MMC5603) (tr : Trace) :
  c env st tr = OutOfFuel -> bind c k env st tr = OutOfFuel.
Proof. intros H. unfold bind. rewrite H. reflexivity. Qed.

Lemma bind_returned {A B : Type} (c : M A) (k : A -> M B) (env : Env)
    (st : Adafruit_MMC5603) (tr : Trace) (b : B) (st' : Adafruit_MMC5603)
    (tr' : Trace) :
  bind c k env st tr = Done b st' tr' ->
  exists a st1 tr1,
    c env st tr = Done a st1 tr1 /\ k a env st1 tr1 = Done b st' tr'.
Proof.
  unfold bind. destruct (c env st tr) as [a st1 tr1|]; [|discriminate].
  intros H. exists a, st1, tr1. split; [reflexivity|exact H].
Qed.

(** One straight-line statement. *)
Ltac step := erewrite bind_done by reflexivity.
Ltac step_in H := erewrite bind_done in H by reflexivity.

Lemma readXYZ_sample (env : Env) (st : Adafruit_MMC5603) (tr : Trace) :
  readXYZ env st tr = Done (sample env tr) st (BusRead MMC56X3_OUT_X_L 9 :: tr).
Proof. reflexivity. Qed.

(** ** calibrate *)

Lemma loop_set_body (env : Env) (st : Adafruit_MMC5603) (tr : Trace) :
  (Serial_println "Not done reading!S" ;; delay 1) env st tr
  = Done tt st (loop_set ++ tr).
Proof. reflexivity. Qed.

Lemma loop_reset_body (env : Env) (st : Adafruit_MMC5603) (tr : Trace) :
  (Serial_println "Not done reading!R" ;; delay 1) env st tr
  = Done tt st (loop_reset ++ tr).
Proof. reflexivity. Qed.

(** The whole run, when the first loop sees the bit at poll [k1] and the
    second at poll [k2]. *)
Lemma calibrate_run (env : Env) (st : Adafruit_MMC5603) (tr : Trace)
    (fuel k1 k2 : nat) :
  is_uint8 (_ctrl2_cache st) ->
  (k1 < fuel)%nat -> (k2 < fuel)%nat ->
  done_at env 6 loop_set (cal_poll_high st tr) k1 ->
  done_at env 6 loop_reset (cal_poll_low st tr k1) k2 ->
  calibrate fuel env st tr
  = let '(x_high, y_high, z_high) := sample env (cal_read_high st tr k1) in
    let '(x_low, y_low, z_low) := sample env (cal_read_low st tr k1 k2) in
    Done tt
      (set_bias st (bias_mean x_high x_low) (bias_mean y_high y_low)
                (bias_mean z_high z_low))
      (cal_restore (byte_val (device env tr MMC56X3_CTRL1_REG 0%nat))
                   (_ctrl2_cache st)
       ++ BusRead MMC56X3_OUT_X_L 9 :: cal_read_low st tr k1 k2).
Proof.
  intros Hc Hk1 Hk2 H1 H2.
  unfold calibrate.
  do 8 step.
  erewrite bind_done
    by (apply (while_not_completes env 6 loop_set);
        [apply loop_set_body|exact Hk1|exact H1]).
  erewrite bind_done by apply readXYZ_sample.
  do 4 step.
  erewrite bind_done
    by (apply (while_not_completes env 6 loop_reset);
        [apply loop_reset_body|exact Hk2|exact H2]).
  erewrite bind_done by apply readXYZ_sample.
  unfold sample. cbv beta iota zeta.
  do 5 step.
  rewrite (bind_done _ _ _ _ _ _ _ _ (isContinuousMode_run _ _ _)).
  rewrite setContinuousMode_run.
  cbn [_ctrl2_cache set_ctrl2_cache set_bias set_odr_cache].
  rewrite (to_uint8_id (byte_val _)) by apply byte_val_range.
  unfold cal_restore, cal_read_low, cal_poll_low, cal_read_high, cal_poll_high.
  destruct (Z.testbit (_ctrl2_cache st) 4) eqn:E; cbv zeta.
  - assert (Hid : to_uint8 (Z.lor (_ctrl2_cache st) 16) = _ctrl2_cache st)
      by (apply (set_bit_idem _ 4); [lia|exact Hc|exact E]).
    change (2 ^ 4) with 16. rewrite !Hid. reflexivity.
  - assert (Hid : to_uint8 (Z.land (_ctrl2_cache st) (Z.lnot 16))
                  = _ctrl2_cache st)
      by (apply (clear_bit_idem _ 4); [lia|exact Hc|exact E]).
    change (2 ^ 4) with 16. rewrite !Hid. reflexivity.
Qed.

(** A run that returned went through both loops. *)
Lemma calibrate_returned (env : Env) (st : Adafruit_MMC5603) (tr : Trace)
    (fuel : nat) (u : unit) (st' : Adafruit_MMC5603) (tr' : Trace) :
  calibrate fuel env st tr = Done u st' tr' ->
  exists k1 k2,
    (k1 < fuel)%nat /\ (k2 < fuel)%nat
    /\ done_at env 6 loop_set (cal_poll_high st tr) k1
    /\ done_at env 6 loop_reset (cal_poll_low st tr k1) k2.
Proof.
  intros H. unfold calibrate in H.
  do 8 step_in H.
  apply bind_returned in H. destruct H as (u1 & st1 & tr1 & E1 & H).
  pose proof E1 as E1'.
  apply (while_not_returned env 6 loop_set _ (loop_set_body env)) in E1'.
  destruct E1' as (k1 & Hk1 & D1).
  assert (E : Done u1 st1 tr1
              = Done tt
                  (set_ctrl2_cache st
                     (to_uint8 (Z.land (_ctrl2_cache st) (Z.lnot 0x10))))
                  (cal_read_high st tr k1)).
  { rewrite <- E1.
    apply (while_not_completes env 6 loop_set _ (loop_set_body env));
      [exact Hk1|exact D1]. }
  injection E as _ -> ->.
  erewrite bind_done in H by apply readXYZ_sample.
  do 4 step_in H.
  apply bind_returned in H. destruct H as (u2 & st2 & tr2 & E2 & H).
  apply (while_not_returned env 6 loop_reset _ (loop_reset_body env)) in E2.
  destruct E2 as (k2 & Hk2 & D2).
  exists k1, k2.
  split; [exact Hk1|]. split; [exact Hk2|]. split; [exact D1|exact D2].
Qed.

Lemma last_write_restore (old_ctrl1 old_ctrl2 : Z) (rest : Trace) :
  last_write MMC56X3_CTRL1_REG (cal_restore old_ctrl1 old_ctrl2 ++ rest)
  = Some old_ctrl1
  /\ last_write MMC56X3_CTRL2_REG (cal_restore old_ctrl1 old_ctrl2 ++ rest)
     = Some old_ctrl2.
Proof.
  unfold cal_restore. destruct (Z.testbit old_ctrl2 4); split; reflexivity.
Qed.

(** What a calibrate that returned has left. *)
Lemma calibrate_returned_restored (env : Env) (st : Adafruit_MMC5603)
    (tr : Trace) (fuel : nat) (st' : Adafruit_MMC5603) (tr' : Trace) :
  is_uint8 (_ctrl2_cache st) ->
  calibrate fuel env st tr = Done tt st' tr' ->
  st' = set_bias st (bx st') (by_ st') (bz st')
  /\ _ctrl2_cache st' = _ctrl2_cache st
  /\ (exists c,
        isContinuousMode env st tr = Done c st tr
        /\ isContinuousMode env st' tr' = Done c st' tr')
  /\ (exists rest,
        tr' = cal_restore (byte_val (device env tr MMC56X3_CTRL1_REG 0%nat))
                          (_ctrl2_cache st) ++ rest)
  /\ last_write MMC56X3_CTRL1_REG tr'
     = Some (byte_val (device env tr MMC56X3_CTRL1_REG 0%nat))
  /\ last_write MMC56X3_CTRL2_REG tr' = Some (_ctrl2_cache st).
Proof.
  intros Hc H.
  destruct (calibrate_returned _ _ _ _ _ _ _ H) as (k1 & k2 & Hk1 & Hk2 & D1 & D2).
  rewrite (calibrate_run env st tr fuel k1 k2 Hc Hk1 Hk2 D1 D2) in H.
  unfold sample in H. cbv beta iota zeta in H.
  injection H as <- <-.
  cbn [bx by_ bz _ctrl2_cache set_bias].
  split; [reflexivity|]. split; [reflexivity|].
  split.
  { exists (Z.testbit (_ctrl2_cache st) 4).
    rewrite !isContinuousMode_run. cbn [_ctrl2_cache set_bias].
    split; reflexivity. }
  split.
  { exists (BusRead MMC56X3_OUT_X_L 9 :: cal_read_low st tr k1 k2).
    reflexivity. }
  exact (last_write_restore _ _
           (BusRead MMC56X3_OUT_X_L 9 :: cal_read_low st tr k1 k2)).
Qed.

(** calibrate returns when both polls see the done bit within the fuel. *)
Lemma calibrate_returns (env : Env) (st : Adafruit_MMC5603) (tr : Trace)
    (fuel k1 k2 : nat) :
  is_uint8 (_ctrl2_cache st) ->
  (k1 < fuel)%nat -> (k2 < fuel)%nat ->
  done_at env 6 loop_set (cal_poll_high st tr) k1 ->
  done_at env 6 loop_reset (cal_poll_low st tr k1) k2 ->
  exists st' tr', calibrate fuel env st tr = Done tt st' tr'.
Proof.
  intros Hc Hk1 Hk2 D1 D2.
  rewrite (calibrate_run env st tr fuel k1 k2 Hc Hk1 Hk2 D1 D2).
  destruct (sample env (cal_read_high st tr k1)) as [[xh yh] zh].
  destruct (sample env (cal_read_low st tr k1 k2)) as [[xl yl] zl].
  eexists. eexists. reflexivity.
Qed.

(** C8.  calibrate returns when its two polls complete, and a calibrate that
    returns leaves the object as it was except for the bias: the cached
    control register 2, and with it the answer of isContinuousMode(), are
    those from before the call.  On the bus, the byte read from control
    register 1 on entry is the last value written to it, and the cache value
    from entry is the last value written to control register 2. *)
Theorem calibrate_restores_state (env : Env) (st : Adafruit_MMC5603)
    (tr : Trace) (fuel : nat) :
  is_uint8 (_ctrl2_cache st) ->
  (forall k1 k2,
     (k1 < fuel)%nat -> (k2 < fuel)%nat ->
     done_at env 6 loop_set (cal_poll_high st tr) k1 ->
     done_at env 6 loop_reset (cal_poll_low st tr k1) k2 ->
     exists st' tr', calibrate fuel env st tr = Done tt st' tr')
  /\ (forall st' tr',
        calibrate fuel env st tr = Done tt st' tr' ->
        st' = set_bias st (bx st') (by_ st') (bz st')
        /\ _ctrl2_cache st' = _ctrl2_cache st
        /\ (exists c,
              isContinuousMode env st tr = Done c st tr
              /\ isContinuousMode env st' tr' = Done c st' tr')
        /\ (exists rest,
              tr' = cal_restore
                      (byte_val (device env tr MMC56X3_CTRL1_REG 0%nat))
                      (_ctrl2_cache st) ++ rest)
        /\ last_write MMC56X3_CTRL1_REG tr'
           = Some (byte_val (device env tr MMC56X3_CTRL1_REG 0%nat))
        /\ last_write MMC56X3_CTRL2_REG tr' = Some (_ctrl2_cache st)).
Proof.
  intros Hc. split.
  - intros k1 k2. apply calibrate_returns. exact Hc.
  - intros st' tr'. apply calibrate_returned_restored. exact Hc.
Qed.

(** The bias a calibrate that returned has stored. *)
Lemma calibrate_returned_bias (env : Env) (st : Adafruit_MMC5603)
    (tr : Trace) (fuel : nat) (st' : Adafruit_MMC5603) (tr' : Trace) :
  is_uint8 (_ctrl2_cache st) ->
  calibrate fuel env st tr = Done tt st' tr' ->
  (exists k1 k2 x_high y_high z_high x_low y_low z_low,
     done_at env 6 loop_set (cal_poll_high st tr) k1
     /\ done_at env 6 loop_reset (cal_poll_low st tr k1) k2
     /\ sample env (cal_read_high st tr k1) = (x_high, y_high, z_high)
     /\ sample env (cal_read_low st tr k1 k2) = (x_low, y_low, z_low)
     /\ bx st' = Z.quot (x_high + x_low) 2
     /\ by_ st' = Z.quot (y_high + y_low) 2
     /\ bz st' = Z.quot (z_high + z_low) 2
     /\ 2 * bx st' <= x_high + x_low <= 2 * bx st' + 1
     /\ 2 * by_ st' <= y_high + y_low <= 2 * by_ st' + 1
     /\ 2 * bz st' <= z_high + z_low <= 2 * bz st' + 1)
  /\ bias_mean 100000 (-40) = 49980.
Proof.
  intros Hc H. split; [|vm_compute; reflexivity].
  destruct (calibrate_returned _ _ _ _ _ _ _ H) as (k1 & k2 & Hk1 & Hk2 & D1 & D2).
  rewrite (calibrate_run env st tr fuel k1 k2 Hc Hk1 Hk2 D1 D2) in H.
  unfold sample in H |- *. cbv beta iota zeta in H.
  injection H as <- <-.
  exists k1, k2. do 6 eexists.
  split; [exact D1|]. split; [exact D2|].
  split; [reflexivity|]. split; [reflexivity|].
  cbn [bx by_ bz set_bias].
  assert (Hmean : forall a b c d e f,
    is_uint8 a -> is_uint8 b -> is_uint8 c ->
    is_uint8 d -> is_uint8 e -> is_uint8 f ->
    bias_mean (decode_axis a b c) (decode_axis d e f)
    = Z.quot (decode_axis a b c + decode_axis d e f) 2
    /\ 2 * Z.quot (decode_axis a b c + decode_axis d e f) 2
       <= decode_axis a b c + decode_axis d e f
       <= 2 * Z.quot (decode_axis a b c + decode_axis d e f) 2 + 1).
  { intros a b c d e f Ha Hb Hc' Hd He Hf.
    destruct (decode_axis_bytes a b c Ha Hb Hc') as (_ & _ & R1).
    destruct (decode_axis_bytes d e f Hd He Hf) as (_ & _ & R2).
    change (2 ^ 20) with 1048576 in R1, R2.
    set (p := decode_axis a b c) in *. set (q := decode_axis d e f) in *.
    assert (Hq : Z.quot (p + q) 2 = (p + q) / 2)
      by (apply Z.quot_div_nonneg; lia).
    pose proof (Z.div_mod (p + q) 2 ltac:(lia)) as Hdm.
    pose proof (Z.mod_pos_bound (p + q) 2 ltac:(lia)) as Hm.
    split.
    - unfold bias_mean.
      rewrite (to_int32_id (p + q))
        by (unfold is_int32; change (2 ^ 31) with 2147483648; lia).
      apply to_int32_id. unfold is_int32.
      change (2 ^ 31) with 2147483648. rewrite Hq. lia.
    - rewrite Hq. lia. }
  repeat match goal with
  | |- context [bias_mean (decode_axis ?a ?b ?c) (decode_axis ?d ?e ?f)] =>
      rewrite (proj1 (Hmean a b c d e f
        (byte_val_range _) (byte_val_range _) (byte_val_range _)
        (byte_val_range _) (byte_val_range _) (byte_val_range _)))
  end.
  repeat split;
    try reflexivity;
    apply Hmean; apply byte_val_range.
Qed.

(** C3, as the code has it.  calibrate returns when its two polls complete,
    and a calibrate that returns has stored, per axis, the sum of the high
    and the low sample divided by two and truncated: the samples are not
    negative, so this is the floor of the mean, the mean itself when the sum
    is even and half a unit below it when the sum is odd.  The averaging
    expression gives 49980 for 100000 and -40. *)
Theorem calibrate_bias_truncated_mean (env : Env) (st : Adafruit_MMC5603)
    (tr : Trace) (fuel : nat) :
  is_uint8 (_ctrl2_cache st) ->
  (forall k1 k2,
     (k1 < fuel)%nat -> (k2 < fuel)%nat ->
     done_at env 6 loop_set (cal_poll_high st tr) k1 ->
     done_at env 6 loop_reset (cal_poll_low st tr k1) k2 ->
     exists st' tr', calibrate fuel env st tr = Done tt st' tr')
  /\ (forall st' tr',
        calibrate fuel env st tr = Done tt st' tr' ->
        (exists k1 k2 x_high y_high z_high x_low y_low z_low,
           done_at env 6 loop_set (cal_poll_high st tr) k1
           /\ done_at env 6 loop_reset (cal_poll_low st tr k1) k2
           /\ sample env (cal_read_high st tr k1) = (x_high, y_high, z_high)
           /\ sample env (cal_read_low st tr k1 k2) = (x_low, y_low, z_low)
           /\ bx st' = Z.quot (x_high + x_low) 2
           /\ by_ st' = Z.quot (y_high + y_low) 2
           /\ bz st' = Z.quot (z_high + z_low) 2
           /\ 2 * bx st' <= x_high + x_low <= 2 * bx st' + 1
           /\ 2 * by_ st' <= y_high + y_low <= 2 * by_ st' + 1
           /\ 2 * bz st' <= z_high + z_low <= 2 * bz st' + 1)
        /\ bias_mean 100000 (-40) = 49980).
Proof.
  intros Hc. split.
  - intros k1 k2. apply calibrate_returns. exact Hc.
  - intros st' tr'. apply calibrate_returned_bias. exact Hc.
Qed.

(** ** readTemperature *)

Lemma all_bits_spec (depth : nat) (p : Z -> bool) :
  forall base,
    all_bits depth base p = true ->
    forall v,
      base * 2 ^ Z.of_nat depth <= v < (base + 1) * 2 ^ Z.of_nat depth ->
      p v = true.
Proof.
  induction depth as [|d IH]; intros base H v Hv.
  - cbn [all_bits] in H. change (2 ^ Z.of_nat 0) with 1 in Hv.
    replace v with base by lia. exact H.
  - cbn [all_bits] in H. apply andb_true_iff in H. destruct H as [Hlo Hhi].
    rewrite Nat2Z.inj_succ, Z.pow_succ_r in Hv by lia.
    assert (Hq : 0 < 2 ^ Z.of_nat d) by (apply Z.pow_pos_nonneg; lia).
    destruct (Z.lt_ge_cases v ((2 * base + 1) * 2 ^ Z.of_nat d)) as [Hl|Hg].
    + apply (IH (2 * base) Hlo). split; [nia|exact Hl].
    + apply (IH (2 * base + 1) Hhi). split; [exact Hg|nia].
Qed.

(** On every byte the affine map gives a number, at most 2^-16 away from
    0.8 * raw - 75, whichever format [double] has. *)
Lemma temp_of_raw_affine (tgt : Target) (raw : Z) :
  is_uint8 raw ->
  is_nan (temp_of_raw tgt raw) = false
  /\ float_within (temp_of_raw tgt raw) (4 * raw - 375) 5 1 (2 ^ 16) = true.
Proof.
  intros Hraw.
  assert (H : all_bits 8 0 (fun r =>
            negb (is_nan (temp_of_raw tgt r))
            && float_within (temp_of_raw tgt r) (4 * r - 375) 5 1 (2 ^ 16))
          = true).
  { destruct tgt as [ty sz fmt]. destruct fmt; vm_compute; reflexivity. }
  pose proof (all_bits_spec _ _ 0 H raw Hraw) as Hr. cbv beta in Hr.
  apply andb_true_iff in Hr. destruct Hr as [Hn Hw].
  split; [apply negb_true_iff; exact Hn|exact Hw].
Qed.

Lemma loop_wait_body (env : Env) (st : Adafruit_MMC5603) (tr : Trace) :
  delay 5 env st tr = Done tt st (loop_wait ++ tr).
Proof. reflexivity. Qed.

Lemma readTemperature_continuous (tgt : Target) (fuel : nat) (env : Env)
    (st : Adafruit_MMC5603) (tr : Trace) :
  Z.testbit (_ctrl2_cache st) 4 = true ->
  readTemperature tgt fuel env st tr = Done NAN st tr.
Proof.
  intros Hcm. unfold readTemperature.
  rewrite (bind_done _ _ _ _ _ _ _ _ (isContinuousMode_run _ _ _)).
  rewrite Hcm. reflexivity.
Qed.

Lemma readTemperature_oneshot (tgt : Target) (fuel : nat) (env : Env)
    (st : Adafruit_MMC5603) (tr : Trace) (k : nat) :
  Z.testbit (_ctrl2_cache st) 4 = false ->
  (k < fuel)%nat ->
  done_at env 7 loop_wait (temp_poll tr) k ->
  readTemperature tgt fuel env st tr
  = Done (temp_of_raw tgt (byte_val (device env (temp_read tr k)
                                       MMC56X3_OUT_TEMP 0%nat)))
         st (BusRead MMC56X3_OUT_TEMP 1 :: temp_read tr k).
Proof.
  intros Hcm Hk Hd. unfold readTemperature.
  rewrite (bind_done _ _ _ _ _ _ _ _ (isContinuousMode_run _ _ _)).
  rewrite Hcm. step.
  erewrite bind_done
    by (apply (while_not_completes env 7 loop_wait);
        [apply loop_wait_body|exact Hk|exact Hd]).
  reflexivity.
Qed.

Lemma readTemperature_returned (tgt : Target) (fuel : nat) (env : Env)
    (st : Adafruit_MMC5603) (tr : Trace) (v : spec_float)
    (st' : Adafruit_MMC5603) (tr' : Trace) :
  Z.testbit (_ctrl2_cache st) 4 = false ->
  readTemperature tgt fuel env st tr = Done v st' tr' ->
  exists k, (k < fuel)%nat /\ done_at env 7 loop_wait (temp_poll tr) k.
Proof.
  intros Hcm H. unfold readTemperature in H.
  rewrite (bind_done _ _ _ _ _ _ _ _ (isContinuousMode_run _ _ _)) in H.
  rewrite Hcm in H. step_in H.
  apply bind_returned in H. destruct H as (u1 & st1 & tr1 & E1 & _).
  apply (while_not_returned env 7 loop_wait _ (loop_wait_body env)) in E1.
  exact E1.
Qed.

(** What a readTemperature that returned has given. *)
Lemma readTemperature_returned_value (tgt : Target) (fuel : nat)
    (env : Env) (st : Adafruit_MMC5603) (tr : Trace) (v : spec_float)
    (st' : Adafruit_MMC5603) (tr' : Trace) :
  readTemperature tgt fuel env st tr = Done v st' tr' ->
  (is_nan v = true <-> isContinuousMode env st tr = Done true st tr)
  /\ (isContinuousMode env st tr = Done false st tr ->
      exists k raw,
        done_at env 7 loop_wait (temp_poll tr) k
        /\ raw = byte_val (device env (temp_read tr k) MMC56X3_OUT_TEMP 0%nat)
        /\ tr' = BusRead MMC56X3_OUT_TEMP 1 :: temp_read tr k
        /\ v = temp_of_raw tgt raw
        /\ float_within v (4 * raw - 375) 5 1 (2 ^ 16) = true).
Proof.
  intros H. rewrite isContinuousMode_run.
  destruct (Z.testbit (_ctrl2_cache st) 4) eqn:Hcm.
  - rewrite readTemperature_continuous in H by exact Hcm.
    injection H as <- _ _.
    split; [split; reflexivity|]. intros E. discriminate E.
  - destruct (readTemperature_returned _ _ _ _ _ _ _ _ Hcm H) as (k & Hk & Hd).
    rewrite (readTemperature_oneshot tgt fuel env st tr k Hcm Hk Hd) in H.
    injection H as <- _ <-.
    destruct (temp_of_raw_affine tgt
                (byte_val (device env (temp_read tr k) MMC56X3_OUT_TEMP 0%nat))
                (byte_val_range _)) as [Hnan Hw].
    split.
    + rewrite Hnan. split; intros E; discriminate E.
    + intros _. exists k. eexists. split; [exact Hd|]. split; [reflexivity|].
      split; [reflexivity|]. split; [reflexivity|exact Hw].
Qed.

(** C5.  In continuous mode readTemperature returns NaN at once, and in
    one-shot mode it returns when its poll completes.  Whenever it returns,
    it gives NaN exactly when isContinuousMode() was true at the call; in
    one-shot mode what it gives is the byte of the temperature register, read
    once the poll has seen the done bit, scaled by 0.8 and shifted by -75 in
    float arithmetic: a number, at most 2^-16 away from 0.8 * raw - 75. *)
Theorem readTemperature_nan_iff_continuous (tgt : Target) (fuel : nat)
    (env : Env) (st : Adafruit_MMC5603) (tr : Trace) :
  (isContinuousMode env st tr = Done true st tr ->
   readTemperature tgt fuel env st tr = Done NAN st tr)
  /\ (forall k,
        isContinuousMode env st tr = Done false st tr ->
        (k < fuel)%nat ->
        done_at env 7 loop_wait (temp_poll tr) k ->
        exists v tr', readTemperature tgt fuel env st tr = Done v st tr')
  /\ (forall v st' tr',
        readTemperature tgt fuel env st tr = Done v st' tr' ->
        (is_nan v = true <-> isContinuousMode env st tr = Done true st tr)
        /\ (isContinuousMode env st tr = Done false st tr ->
            exists k raw,
              done_at env 7 loop_wait (temp_poll tr) k
              /\ raw = byte_val (device env (temp_read tr k)
                                   MMC56X3_OUT_TEMP 0%nat)
              /\ tr' = BusRead MMC56X3_OUT_TEMP 1 :: temp_read tr k
              /\ v = temp_of_raw tgt raw
              /\ float_within v (4 * raw - 375) 5 1 (2 ^ 16) = true)).
Proof.
  split; [|split].
  - rewrite isContinuousMode_run. intros Hcm. injection Hcm as Hcm.
    apply readTemperature_continuous. exact Hcm.
  - rewrite isContinuousMode_run. intros k Hcm Hk Hd. injection Hcm as Hcm.
    rewrite (readTemperature_oneshot tgt fuel env st tr k Hcm Hk Hd).
    eexists. eexists. reflexivity.
  - intros v st' tr'. apply readTemperature_returned_value.
Qed.

(** ** getEvent *)

Lemma getEvent_at (tgt : Target) (fuel : nat) (env : Env)
    (st : Adafruit_MMC5603) (tr rd : Trace) :
  (if negb (Z.testbit (_ctrl2_cache st) 4)
   then reg_write MMC56X3_CTRL0_REG 0x01 ;;
        while_not fuel mag_read_done (delay 5)
   else ret tt) env st tr = Done tt st rd ->
  getEvent tgt fuel env st tr
  = Done (true, event_at tgt env st rd) (object_at env st rd)
         (BusRead MMC56X3_OUT_X_L 9 :: rd).
Proof.
  intros Hpoll. unfold getEvent.
  rewrite (bind_done _ _ _ _ _ _ _ _ (isContinuousMode_run _ _ _)).
  rewrite (bind_done _ _ _ _ _ _ _ _ Hpoll).
  rewrite (bind_done _ _ _ _ _ _ _ _ (readXYZ_sample _ _ _)).
  unfold event_at, object_at, sample. cbv beta iota zeta.
  do 7 step. reflexivity.
Qed.

Lemma getEvent_continuous (tgt : Target) (fuel : nat) (env : Env)
    (st : Adafruit_MMC5603) (tr : Trace) :
  Z.testbit (_ctrl2_cache st) 4 = true ->
  getEvent tgt fuel env st tr
  = Done (true, event_at tgt env st tr) (object_at env st tr)
         (BusRead MMC56X3_OUT_X_L 9 :: tr).
Proof.
  intros Hcm. apply getEvent_at. rewrite Hcm. reflexivity.
Qed.

Lemma getEvent_oneshot (tgt : Target) (fuel : nat) (env : Env)
    (st : Adafruit_MMC5603) (tr : Trace) (k : nat) :
  Z.testbit (_ctrl2_cache st) 4 = false ->
  (k < fuel)%nat ->
  done_at env 6 loop_wait (event_poll tr) k ->
  getEvent tgt fuel env st tr
  = Done (true, event_at tgt env st (event_read tr k))
         (object_at env st (event_read tr k))
         (BusRead MMC56X3_OUT_X_L 9 :: event_read tr k).
Proof.
  intros Hcm Hk Hd. apply getEvent_at. rewrite Hcm. cbn [negb]. step.
  apply (while_not_completes env 6 loop_wait);
    [apply loop_wait_body|exact Hk|exact Hd].
Qed.

Lemma getEvent_returned (tgt : Target) (fuel : nat) (env : Env)
    (st : Adafruit_MMC5603) (tr : Trace) (res : bool * sensors_event_t)
    (st' : Adafruit_MMC5603) (tr' : Trace) :
  Z.testbit (_ctrl2_cache st) 4 = false ->
  getEvent tgt fuel env st tr = Done res st' tr' ->
  exists k, (k < fuel)%nat /\ done_at env 6 loop_wait (event_poll tr) k.
Proof.
  intros Hcm H. unfold getEvent in H.
  rewrite (bind_done _ _ _ _ _ _ _ _ (isContinuousMode_run _ _ _)) in H.
  rewrite Hcm in H. cbn [negb] in H.
  apply bind_returned in H. destruct H as (u1 & st1 & tr1 & E1 & _).
  step_in E1.
  apply (while_not_returned env 6 loop_wait _ (loop_wait_body env)) in E1.
  exact E1.
Qed.

Lemma sample_range (env : Env) (rd : Trace) (rx ry rz : Z) :
  sample env rd = (rx, ry, rz) ->
  0 <= rx < 2 ^ 20 /\ 0 <= ry < 2 ^ 20 /\ 0 <= rz < 2 ^ 20.
Proof.
  unfold sample. intros H. injection H as <- <- <-.
  repeat split; apply decode_axis_bytes; apply byte_val_range.
Qed.

(** ** Rounding errors

    [SpecFloat] rounds by shifting the mantissa right and looking at the two
    flags the shift leaves.  The lemmas follow that: what the flags say after
    any number of shifts, the error of one rounding, and the error of the
    roundings of the scale. *)




















(** One rounding, for any format wide enough to hold the window. *)
Section Rounding.

Variables prec emax : Z.
Hypothesis prec_pos : 0 < prec.
Hypothesis emax_large : 102 + prec <= emax.






End Rounding.























(** ** The loops have no bound *)

Lemma calibrate_spins (env : Env) (st : Adafruit_MMC5603) (tr : Trace)
    (fuel : nat) :
  (forall j, (j < fuel)%nat ->
     status_bit env 6 (polled loop_set (cal_poll_high st tr) j) = 0) ->
  calibrate fuel env st tr = OutOfFuel.
Proof.
  intros Hz. unfold calibrate. do 8 step.
  apply bind_spin.
  apply (while_not_spins env 6 loop_set _ (loop_set_body env)). exact Hz.
Qed.







(** * The theorems at concrete inputs *)


(** Against C3 as worded.  On a device whose high sample decodes to x = 1 and
    whose low sample decodes to x = 2 the mean is 1.5; calibrate stores 1,
    the specification's round gives 2. *)
Lemma calibrate_bias_is_not_rounded_mean :
  calibrate 1 odd_sum_env oneshot_object []
  = Done tt (set_bias oneshot_object 1 0 0)
      (cal_restore 0 0
       ++ BusRead MMC56X3_OUT_X_L 9 :: cal_read_low oneshot_object [] 0 0)
  /\ sample odd_sum_env (cal_read_high oneshot_object [] 0) = (1, 0, 0)
  /\ sample odd_sum_env (cal_read_low oneshot_object [] 0 0) = (2, 0, 0)
  /\ spec_rounded_mean 1 2 = 2
  /\ bx (set_bias oneshot_object 1 0 0) <> spec_rounded_mean 1 2.
Proof.
  split; [vm_compute; reflexivity|].
  split; [vm_compute; reflexivity|].
  split; [vm_compute; reflexivity|].
  split; [vm_compute; reflexivity|].
  vm_compute. discriminate.
Qed.

Lemma ready_env_done_at (shift : Z) (evs tr : Trace) :
  shift = 6 \/ shift = 7 -> done_at ready_env shift evs tr 0.
Proof.
  intros Hs. split; [intros j Hj; lia|].
  destruct Hs as [-> | ->]; vm_compute; discriminate.
Qed.

Lemma calibrate_bias_truncated_mean_witness :
  is_uint8 (_ctrl2_cache oneshot_object)
  /\ calibrate 1 odd_sum_env oneshot_object []
     = Done tt (set_bias oneshot_object 1 0 0)
         (cal_restore 0 0
          ++ BusRead MMC56X3_OUT_X_L 9 :: cal_read_low oneshot_object [] 0 0)
  /\ (exists st' tr', calibrate 1 odd_sum_env oneshot_object [] = Done tt st' tr')
  /\ bias_mean 100000 (-40) = 49980.
Proof.
  assert (Hc : is_uint8 (_ctrl2_cache oneshot_object))
    by (unfold is_uint8; vm_compute; split; [discriminate|reflexivity]).
  assert (Hrun : calibrate 1 odd_sum_env oneshot_object []
     = Done tt (set_bias oneshot_object 1 0 0)
         (cal_restore 0 0
          ++ BusRead MMC56X3_OUT_X_L 9 :: cal_read_low oneshot_object [] 0 0))
    by (vm_compute; reflexivity).
  assert (D1 : done_at odd_sum_env 6 loop_set
                 (cal_poll_high oneshot_object []) 0)
    by (split; [intros j Hj; lia|vm_compute; discriminate]).
  assert (D2 : done_at odd_sum_env 6 loop_reset
                 (cal_poll_low oneshot_object [] 0) 0)
    by (split; [intros j Hj; lia|vm_compute; discriminate]).
  destruct (calibrate_bias_truncated_mean odd_sum_env oneshot_object [] 1 Hc)
    as [Hret Hbias].
  split; [exact Hc|]. split; [exact Hrun|].
  split; [exact (Hret 0%nat 0%nat Nat.lt_0_1 Nat.lt_0_1 D1 D2)|].
  exact (proj2 (Hbias _ _ Hrun)).
Defined.


Lemma getDataRate_returns_ctrl2_cache_witness :
  1 <= 100 <= 255
  /\ ctrl2_reachable (_ctrl2_cache oneshot_object)
  /\ Z.land (_ctrl2_cache oneshot_object) 0x10 = 0
  /\ exists st' tr',
       (setDataRate 100 ;; getDataRate) ready_env oneshot_object []
       = Done 0 st' tr'
       /\ _odr_cache st' = 100 /\ 0 <> 100.
Proof.
  assert (Hr : 1 <= 100 <= 255) by lia.
  assert (Hreach : ctrl2_reachable (_ctrl2_cache oneshot_object))
    by (left; reflexivity).
  assert (Hcm : Z.land (_ctrl2_cache oneshot_object) 0x10 = 0)
    by reflexivity.
  split; [exact Hr|]. split; [exact Hreach|]. split; [exact Hcm|].
  exact (proj1 (proj2 (getDataRate_returns_ctrl2_cache 100 ready_env
                         oneshot_object [] Hr Hreach Hcm))).
Defined.

Lemma readTemperature_nan_iff_continuous_witness :
  isContinuousMode ready_env continuous_object []
  = Done true continuous_object []
  /\ isContinuousMode ready_env oneshot_object [] = Done false oneshot_object []
  /\ done_at ready_env 7 loop_wait (temp_poll []) 0
  /\ readTemperature avr_target 1 ready_env continuous_object []
     = Done NAN continuous_object []
  /\ readTemperature avr_target 1 ready_env oneshot_object []
     = Done (temp_of_raw avr_target 18) oneshot_object
         (BusRead MMC56X3_OUT_TEMP 1 :: temp_read [] 0)
  /\ (exists v tr',
        readTemperature avr_target 1 ready_env oneshot_object []
        = Done v oneshot_object tr')
  /\ (is_nan (temp_of_raw avr_target 18) = true
      <-> isContinuousMode ready_env oneshot_object []
          = Done true oneshot_object []).
Proof.
  assert (Hon : isContinuousMode ready_env continuous_object []
                = Done true continuous_object []) by reflexivity.
  assert (Hoff : isContinuousMode ready_env oneshot_object []
                 = Done false oneshot_object []) by reflexivity.
  assert (Hd : done_at ready_env 7 loop_wait (temp_poll []) 0)
    by (apply ready_env_done_at; right; reflexivity).
  assert (Hrun : readTemperature avr_target 1 ready_env oneshot_object []
    = Done (temp_of_raw avr_target 18) oneshot_object
        (BusRead MMC56X3_OUT_TEMP 1 :: temp_read [] 0))
    by (vm_compute; reflexivity).
  destruct (readTemperature_nan_iff_continuous avr_target 1 ready_env
              continuous_object []) as (Hnan & _ & _).
  destruct (readTemperature_nan_iff_continuous avr_target 1 ready_env
              oneshot_object []) as (_ & Hret & Hval).
  split; [exact Hon|]. split; [exact Hoff|]. split; [exact Hd|].
  split; [exact (Hnan Hon)|]. split; [exact Hrun|].
  split; [exact (Hret 0%nat Hoff Nat.lt_0_1 Hd)|].
  exact (proj1 (Hval _ _ _ Hrun)).
Defined.


Lemma calibrate_restores_state_witness :
  is_uint8 (_ctrl2_cache continuous_object)
  /\ done_at ready_env 6 loop_set (cal_poll_high continuous_object []) 0
  /\ done_at ready_env 6 loop_reset (cal_poll_low continuous_object [] 0) 0
  /\ (exists st' tr',
        calibrate 1 ready_env continuous_object [] = Done tt st' tr')
  /\ calibrate 1 ready_env continuous_object []
     = Done tt (set_bias continuous_object 74017 74017 74017)
         (cal_restore 18 16
          ++ BusRead MMC56X3_OUT_X_L 9 :: cal_read_low continuous_object [] 0 0)
  /\ last_write MMC56X3_CTRL1_REG
       (cal_restore 18 16
        ++ BusRead MMC56X3_OUT_X_L 9 :: cal_read_low continuous_object [] 0 0)
     = Some (byte_val (device ready_env [] MMC56X3_CTRL1_REG 0%nat)).
Proof.
  assert (Hc : is_uint8 (_ctrl2_cache continuous_object))
    by (unfold is_uint8; vm_compute; split; [discriminate|reflexivity]).
  assert (D1 : done_at ready_env 6 loop_set
                 (cal_poll_high continuous_object []) 0)
    by (apply ready_env_done_at; left; reflexivity).
  assert (D2 : done_at ready_env 6 loop_reset
                 (cal_poll_low continuous_object [] 0) 0)
    by (apply ready_env_done_at; left; reflexivity).
  assert (Hrun : calibrate 1 ready_env continuous_object []
     = Done tt (set_bias continuous_object 74017 74017 74017)
         (cal_restore 18 16
          ++ BusRead MMC56X3_OUT_X_L 9
             :: cal_read_low continuous_object [] 0 0))
    by (vm_compute; reflexivity).
  destruct (calibrate_restores_state ready_env continuous_object [] 1 Hc)
    as [Hret Hkeep].
  split; [exact Hc|]. split; [exact D1|]. split; [exact D2|].
  split; [exact (Hret 0%nat 0%nat Nat.lt_0_1 Nat.lt_0_1 D1 D2)|].
  split; [exact Hrun|].
  destruct (Hkeep _ _ Hrun) as (_ & _ & _ & _ & H1 & _).
  exact H1.
Defined.

Lemma never_done_stuck_env (shift : Z) : never_done stuck_env shift.
Proof.
  intros tr. unfold status_bit, stuck_env, const_env. cbn [device].
  change (byte_val x00) with 0. rewrite Z.shiftr_0_l. reflexivity.
Qed.


Lemma setDataRate_keeps_other_ctrl2_bits_witness :
  is_uint8 (_ctrl2_cache continuous_object)
  /\ exists c st' tr',
       (before <- isContinuousMode ;;
        setDataRate 1000 ;;
        after <- isContinuousMode ;;
        ret (before, after)) ready_env continuous_object []
       = Done (c, c) st' tr'.
Proof.
  assert (Hc : is_uint8 (_ctrl2_cache continuous_object))
    by (unfold is_uint8; vm_compute; split; [discriminate|reflexivity]).
  split; [exact Hc|].
  exact (proj2 (setDataRate_keeps_other_ctrl2_bits 1000 ready_env
                  continuous_object [] Hc)).
Defined.

(** * More of the driver *)

(** ** The decode, both ways *)

(** X1.  Every 20-bit value is the decode of its three bytes: high byte
    v >> 12, middle byte (v >> 4) & 0xFF, and the low four bits in the top
    nibble of the shared byte. *)
Theorem decode_encode_roundtrip (v : Z) :
  0 <= v < 2 ^ 20 ->
  let '(hi, mid, lo) := encode_axis v in
  is_uint8 hi /\ is_uint8 mid /\ is_uint8 lo /\ decode_axis hi mid lo = v.
Proof.
  intros Hv. unfold encode_axis.
  change 0xFF with (Z.ones 8). change 0xF with (Z.ones 4).
  rewrite !Z.land_ones, !Z.shiftr_div_pow2, Z.shiftl_mul_pow2 by lia.
  change (2 ^ 20) with 1048576 in Hv.
  change (2 ^ 12) with 4096. change (2 ^ 8) with 256.
  change (2 ^ 4) with 16.
  assert (Hhi : is_uint8 (v / 4096))
    by (unfold is_uint8; change (2 ^ 8) with 256;
        Z.div_mod_to_equations; lia).
  assert (Hmid : is_uint8 ((v / 16) mod 256))
    by (unfold is_uint8; change (2 ^ 8) with 256;
        Z.div_mod_to_equations; lia).
  assert (Hlo : is_uint8 (v mod 16 * 16))
    by (unfold is_uint8; change (2 ^ 8) with 256;
        Z.div_mod_to_equations; lia).
  split; [exact Hhi|]. split; [exact Hmid|]. split; [exact Hlo|].
  destruct (decode_axis_bytes _ _ _ Hhi Hmid Hlo) as (_ & -> & _).
  rewrite Z.div_mul by lia.
  replace (v / 4096) with (v / 16 / 256)
    by (rewrite Z.div_div by lia; reflexivity).
  Z.div_mod_to_equations. lia.
Qed.

Lemma decode_encode_roundtrip_witness :
  0 <= 0xABCDE < 2 ^ 20
  /\ encode_axis 0xABCDE = (0xAB, 0xCD, 0xE0)
  /\ decode_axis 0xAB 0xCD 0xE0 = 0xABCDE.
Proof.
  assert (Hv : 0 <= 0xABCDE < 2 ^ 20) by (vm_compute; split; [discriminate|reflexivity]).
  split; [exact Hv|]. split; [reflexivity|].
  exact (proj2 (proj2 (proj2 (decode_encode_roundtrip 0xABCDE Hv)))).
Defined.

(** X2.  The decoded value gives back the high byte, the middle byte and the
    top nibble of the shared byte, and nothing else: the low four bits of the
    shared byte never reach the sample. *)
Theorem decode_axis_fields (hi mid lo : Z) :
  is_uint8 hi -> is_uint8 mid -> is_uint8 lo ->
  Z.shiftr (decode_axis hi mid lo) 12 = hi
  /\ Z.land (Z.shiftr (decode_axis hi mid lo) 4) 0xFF = mid
  /\ Z.land (decode_axis hi mid lo) 0xF = Z.shiftr lo 4
  /\ decode_axis hi mid lo = decode_axis hi mid (Z.land lo 0xF0).
Proof.
  intros Hhi Hmid Hlo.
  assert (Hlo' : is_uint8 (Z.land lo 0xF0)).
  { assert (E : Z.land lo 0xF0 = Z.land lo 0xF0 mod 2 ^ 8)
      by (rewrite <- Z.land_ones by lia; rewrite <- Z.land_assoc;
          reflexivity).
    rewrite E. apply Z.mod_pos_bound. reflexivity. }
  assert (Hnib : Z.land lo 0xF0 / 16 = lo / 16).
  { rewrite <- !(Z.shiftr_div_pow2 _ 4) by lia.
    rewrite Z.shiftr_land. change (Z.shiftr 0xF0 4) with (Z.ones 4).
    rewrite Z.land_ones by lia. apply Z.mod_small.
    rewrite Z.shiftr_div_pow2 by lia. unfold is_uint8 in Hlo.
    change (2 ^ 8) with 256 in Hlo. change (2 ^ 4) with 16.
    Z.div_mod_to_equations. lia. }
  destruct (decode_axis_bytes _ _ _ Hhi Hmid Hlo) as (_ & E & _).
  destruct (decode_axis_bytes _ _ _ Hhi Hmid Hlo') as (_ & E' & _).
  rewrite E', Hnib, E.
  change 0xFF with (Z.ones 8). change 0xF with (Z.ones 4).
  rewrite !Z.land_ones, !Z.shiftr_div_pow2 by lia.
  unfold is_uint8 in *. change (2 ^ 8) with 256 in *.
  change (2 ^ 12) with 4096. change (2 ^ 4) with 16.
  repeat split; try reflexivity; Z.div_mod_to_equations; lia.
Qed.

Lemma decode_axis_fields_witness :
  is_uint8 0xAB /\ is_uint8 0xCD /\ is_uint8 0xE7
  /\ decode_axis 0xAB 0xCD 0xE7 = decode_axis 0xAB 0xCD (Z.land 0xE7 0xF0).
Proof.
  assert (H1 : is_uint8 0xAB) by (vm_compute; split; [discriminate|reflexivity]).
  assert (H2 : is_uint8 0xCD) by (vm_compute; split; [discriminate|reflexivity]).
  assert (H3 : is_uint8 0xE7) by (vm_compute; split; [discriminate|reflexivity]).
  split; [exact H1|]. split; [exact H2|]. split; [exact H3|].
  exact (proj2 (proj2 (proj2 (decode_axis_fields 0xAB 0xCD 0xE7 H1 H2 H3)))).
Defined.

(** ** begin and reset *)

Lemma reset_run (env : Env) (st : Adafruit_MMC5603) (tr : Trace) :
  reset env st tr
  = Done tt (set_ctrl2_cache (set_odr_cache st 0) 0)
      (RegWrite MMC56X3_CTRL2_REG 0
       :: DelayMillis 1 :: RegWrite MMC56X3_CTRL0_REG 0x10
       :: DelayMillis 1 :: RegWrite MMC56X3_CTRL0_REG 0x08
       :: DelayMillis 20 :: RegWrite MMC56X3_CTRL1_REG 0x80 :: tr).
Proof. reflexivity. Qed.

Lemma reset_coherent (env : Env) (st : Adafruit_MMC5603) (tr : Trace)
    (st' : Adafruit_MMC5603) (tr' : Trace) :
  reset env st tr = Done tt st' tr' -> coherent st' tr'.
Proof.
  rewrite reset_run. intros H. injection H as <- <-.
  split; [left; reflexivity|]. split; reflexivity.
Qed.

(** X3.  begin makes the device object on its first call only: a later call
    keeps the device made before, whatever address it is given.  It probes
    that device and answers true exactly when the probe was acknowledged and
    the product id register reads the expected chip id.  When it answers
    false it has written nothing to the device and has left the fields and
    the four register pointers as they were, and when the probe failed it has
    not even read.  When it answers true it has read the id once, made the
    four register objects for that device, and then done what reset does, so
    the object is in one-shot mode with both caches zero and its bias as
    before. *)
Theorem begin_checks_identity (chip_id : Z)
    (detected : Trace -> Adafruit_I2CDevice -> bool) (i2c_address wire : Z)
    (p : Pointers) (env : Env) (st : Adafruit_MMC5603) (tr : Trace) :
  exists dev r p' st' tr',
    begin chip_id detected i2c_address wire p env st tr = Done (r, p') st' tr'
    /\ dev = device_for p i2c_address wire
    /\ i2c_dev p' = Some dev
    /\ (forall old, i2c_dev p = Some old -> dev = old)
    /\ (i2c_dev p = None -> dev = {| _addr := i2c_address; _wire := wire |})
    /\ r = detected tr dev
           && (byte_val (device env (BusProbe (_wire dev) (_addr dev) :: tr)
                           MMC56X3_PRODUCT_ID 0%nat) =? chip_id)
    /\ (detected tr dev = false ->
        tr' = BusProbe (_wire dev) (_addr dev) :: tr)
    /\ (r = false ->
        st' = st
        /\ _ctrl0_reg p' = _ctrl0_reg p /\ _ctrl1_reg p' = _ctrl1_reg p
        /\ _ctrl2_reg p' = _ctrl2_reg p /\ _status_reg p' = _status_reg p
        /\ (tr' = BusProbe (_wire dev) (_addr dev) :: tr
            \/ tr' = BusRead MMC56X3_PRODUCT_ID 1
                     :: BusProbe (_wire dev) (_addr dev) :: tr))
    /\ (r = true ->
        p' = renew_registers (set_i2c_dev p dev) dev
        /\ reset env st (BusRead MMC56X3_PRODUCT_ID 1
                         :: BusProbe (_wire dev) (_addr dev) :: tr)
           = Done tt st' tr'
        /\ st' = set_ctrl2_cache (set_odr_cache st 0) 0
        /\ coherent st' tr'
        /\ isContinuousMode env st' tr' = Done false st' tr').
Proof.
  exists (device_for p i2c_address wire).
  assert (Hold : forall old, i2c_dev p = Some old ->
            device_for p i2c_address wire = old)
    by (intros old H; unfold device_for; rewrite H; reflexivity).
  assert (Hnew : i2c_dev p = None ->
            device_for p i2c_address wire
            = {| _addr := i2c_address; _wire := wire |})
    by (intros H; unfold device_for; rewrite H; reflexivity).
  unfold begin, i2c_begin.
  set (dev := device_for p i2c_address wire) in *.
  unfold bind at 1. cbv beta iota.
  destruct (detected tr dev) eqn:Hdet; cbn [negb andb].
  - step. cbn [map seq nth].
    destruct (byte_val (device env (BusProbe (_wire dev) (_addr dev) :: tr)
                          MMC56X3_PRODUCT_ID 0%nat) =? chip_id); cbn [negb].
    + step. do 4 eexists. split; [reflexivity|].
      cbn [i2c_dev _ctrl0_reg _ctrl1_reg _ctrl2_reg _status_reg
           renew_registers set_i2c_dev].
      split; [reflexivity|]. split; [reflexivity|].
      split; [exact Hold|]. split; [exact Hnew|].
      split; [reflexivity|].
      split; [discriminate|]. split; [discriminate|]. intros _.
      split; [reflexivity|]. split; [reflexivity|]. split; [reflexivity|].
      split; [|reflexivity].
      apply (reset_coherent env st
               (BusRead MMC56X3_PRODUCT_ID 1
                :: BusProbe (_wire dev) (_addr dev) :: tr)).
      reflexivity.
    + do 4 eexists. split; [reflexivity|].
      cbn [i2c_dev _ctrl0_reg _ctrl1_reg _ctrl2_reg _status_reg set_i2c_dev].
      split; [reflexivity|]. split; [reflexivity|].
      split; [exact Hold|]. split; [exact Hnew|].
      split; [reflexivity|].
      split; [discriminate|]. split; [|discriminate]. intros _.
      do 5 (split; [reflexivity|]). right. reflexivity.
  - do 4 eexists. split; [reflexivity|].
    cbn [i2c_dev _ctrl0_reg _ctrl1_reg _ctrl2_reg _status_reg set_i2c_dev].
    split; [reflexivity|]. split; [reflexivity|].
    split; [exact Hold|]. split; [exact Hnew|].
    split; [reflexivity|].
    split; [reflexivity|]. split; [|discriminate]. intros _.
    do 5 (split; [reflexivity|]). left. reflexivity.
Qed.

Lemma begin_checks_identity_witness :
  begin 0x10 only_0x30 0x30 0 null_pointers (const_env xc0 x10)
    oneshot_object []
  = Done (true, renew_registers (set_i2c_dev null_pointers at_0x30) at_0x30)
      (set_ctrl2_cache (set_odr_cache oneshot_object 0) 0)
      (RegWrite MMC56X3_CTRL2_REG 0
       :: DelayMillis 1 :: RegWrite MMC56X3_CTRL0_REG 0x10
       :: DelayMillis 1 :: RegWrite MMC56X3_CTRL0_REG 0x08
       :: DelayMillis 20 :: RegWrite MMC56X3_CTRL1_REG 0x80
       :: [BusRead MMC56X3_PRODUCT_ID 1; BusProbe 0 0x30])
  /\ begin 0x10 only_0x30 0x30 0 null_pointers ready_env oneshot_object []
     = Done (false, set_i2c_dev null_pointers at_0x30) oneshot_object
         [BusRead MMC56X3_PRODUCT_ID 1; BusProbe 0 0x30]
  /\ begin 0x10 only_0x30 0x31 0 null_pointers ready_env oneshot_object []
     = Done (false, set_i2c_dev null_pointers at_0x31) oneshot_object
         [BusProbe 0 0x31]
  /\ begin 0x10 only_0x30 0x30 0 (set_i2c_dev null_pointers at_0x31)
       (const_env xc0 x10) oneshot_object []
     = Done (false, set_i2c_dev null_pointers at_0x31) oneshot_object
         [BusProbe 0 0x31]
  /\ exists dev r p' st' tr',
       begin 0x10 only_0x30 0x30 0 null_pointers ready_env oneshot_object []
       = Done (r, p') st' tr'
       /\ dev = at_0x30
       /\ i2c_dev p' = Some dev
       /\ r = only_0x30 [] dev
              && (byte_val (device ready_env
                              [BusProbe (_wire dev) (_addr dev)]
                              MMC56X3_PRODUCT_ID 0%nat) =? 0x10).
Proof.
  split; [reflexivity|]. split; [reflexivity|]. split; [reflexivity|].
  split; [reflexivity|].
  destruct (begin_checks_identity 0x10 only_0x30 0x30 0 null_pointers
              ready_env oneshot_object [])
    as (dev & r & p' & st' & tr' & Hrun & Hd & Hdev & _ & _ & Hr & _).
  exists dev, r, p', st', tr'. split; [exact Hrun|].
  split; [exact Hd|]. split; [exact Hdev|exact Hr].
Defined.

(** ** What a call leaves of object and trace *)

Lemma getEvent_shape (tgt : Target) (fuel : nat) (env : Env)
    (st : Adafruit_MMC5603) (tr : Trace) (res : bool * sensors_event_t)
    (st' : Adafruit_MMC5603) (tr' : Trace) :
  getEvent tgt fuel env st tr = Done res st' tr' ->
  exists rd,
    res = (true, event_at tgt env st rd)
    /\ st' = object_at env st rd
    /\ tr' = BusRead MMC56X3_OUT_X_L 9 :: rd
    /\ (if Z.testbit (_ctrl2_cache st) 4 then rd = tr
        else exists k, done_at env 6 loop_wait (event_poll tr) k
                       /\ rd = event_read tr k).
Proof.
  intros H. destruct (Z.testbit (_ctrl2_cache st) 4) eqn:Hcm.
  - rewrite (getEvent_continuous tgt fuel env st tr Hcm) in H.
    injection H as <- <- <-. exists tr. repeat split; reflexivity.
  - destruct (getEvent_returned _ _ _ _ _ _ _ _ Hcm H) as (k & Hk & Hd).
    rewrite (getEvent_oneshot tgt fuel env st tr k Hcm Hk Hd) in H.
    injection H as <- <- <-. exists (event_read tr k).
    split; [reflexivity|]. split; [reflexivity|]. split; [reflexivity|].
    exists k. split; [exact Hd|reflexivity].
Qed.

Lemma readTemperature_shape (tgt : Target) (fuel : nat) (env : Env)
    (st : Adafruit_MMC5603) (tr : Trace) (v : spec_float)
    (st' : Adafruit_MMC5603) (tr' : Trace) :
  readTemperature tgt fuel env st tr = Done v st' tr' ->
  st' = st
  /\ (if Z.testbit (_ctrl2_cache st) 4 then tr' = tr
      else exists k, done_at env 7 loop_wait (temp_poll tr) k
                     /\ tr' = BusRead MMC56X3_OUT_TEMP 1 :: temp_read tr k).
Proof.
  intros H. destruct (Z.testbit (_ctrl2_cache st) 4) eqn:Hcm.
  - rewrite (readTemperature_continuous tgt fuel env st tr Hcm) in H.
    injection H as _ <- <-. split; reflexivity.
  - destruct (readTemperature_returned _ _ _ _ _ _ _ _ Hcm H) as (k & Hk & Hd).
    rewrite (readTemperature_oneshot tgt fuel env st tr k Hcm Hk Hd) in H.
    injection H as _ <- <-. split; [reflexivity|].
    exists k. split; [exact Hd|reflexivity].
Qed.

Lemma last_write_polled (r : mmc56x3_register_t) (evs tr : Trace) (k : nat) :
  (forall t, last_write r (evs ++ t) = last_write r t) ->
  last_write r (polled evs tr k) = last_write r tr.
Proof.
  intros Hevs. induction k as [|k IH]; [reflexivity|].
  cbn [polled]. rewrite Hevs. cbn [last_write]. exact IH.
Qed.

(** ** The cache stays coherent *)

Lemma setContinuousMode_coherent (mode : bool) (env : Env)
    (st : Adafruit_MMC5603) (tr : Trace) (st' : Adafruit_MMC5603)
    (tr' : Trace) :
  coherent st tr ->
  setContinuousMode mode env st tr = Done tt st' tr' ->
  coherent st' tr'.
Proof.
  intros (Hreach & _ & Hhp) H. rewrite setContinuousMode_run in H.
  destruct mode; cbv zeta in H; injection H as <- <-;
    unfold coherent; cbn [_ctrl2_cache _odr_cache set_ctrl2_cache];
    rewrite <- Hhp;
    destruct Hreach as [E | [E | [E | E]]]; rewrite E;
    (split; [vm_compute; tauto|]); split; reflexivity.
Qed.

Lemma setDataRate_coherent (rate : Z) (env : Env)
    (st : Adafruit_MMC5603) (tr : Trace) (st' : Adafruit_MMC5603)
    (tr' : Trace) :
  coherent st tr ->
  setDataRate rate env st tr = Done tt st' tr' ->
  coherent st' tr'.
Proof.
  intros (Hreach & _ & _) H. rewrite setDataRate_run in H.
  destruct (Z.gtb_spec rate 255) as [Hgt|Hle]; cbv zeta in H;
    injection H as <- <-;
    unfold coherent;
    cbn [_ctrl2_cache _odr_cache set_ctrl2_cache set_odr_cache].
  - destruct Hreach as [E | [E | [E | E]]]; rewrite E;
      (split; [vm_compute; tauto|]); split; reflexivity.
  - assert (Hne : (rate =? 1000) = false) by (apply Z.eqb_neq; lia).
    rewrite Hne.
    destruct Hreach as [E | [E | [E | E]]]; rewrite E;
      (split; [vm_compute; tauto|]); split; reflexivity.
Qed.

Lemma run_call_coherent (tgt : Target) (fuel : nat) (c : call) (env : Env)
    (st : Adafruit_MMC5603) (tr : Trace) (st' : Adafruit_MMC5603)
    (tr' : Trace) :
  coherent st tr ->
  run_call tgt fuel c env st tr = Done tt st' tr' ->
  coherent st' tr'.
Proof.
  intros Hco H. destruct c; cbn [run_call] in H.
  - exact (reset_coherent _ _ _ _ _ H).
  - injection H as <- <-. destruct Hco as (H1 & H2 & H3).
    split; [exact H1|]. split; [exact H2|exact H3].
  - destruct Hco as (H1 & H2 & H3).
    destruct (calibrate_returned_restored env st tr fuel st' tr'
                (ctrl2_reachable_uint8 _ H1) H)
      as (Hst & Hc2 & _ & _ & _ & Hw).
    assert (Hodr : _odr_cache st' = _odr_cache st) by (rewrite Hst; reflexivity).
    unfold coherent. rewrite Hc2, Hodr.
    split; [exact H1|]. split; [exact Hw|exact H3].
  - exact (setContinuousMode_coherent _ _ _ _ _ _ Hco H).
  - injection H as <- <-. exact Hco.
  - apply bind_returned in H. destruct H as (v & st1 & tr1 & E & H).
    injection H as <- <-.
    destruct (readTemperature_shape _ _ _ _ _ _ _ _ E) as (-> & Htr).
    destruct Hco as (H1 & H2 & H3).
    split; [exact H1|]. split; [|exact H3].
    destruct (Z.testbit (_ctrl2_cache st) 4).
    + rewrite Htr. exact H2.
    + destruct Htr as (k & _ & ->). unfold temp_read, temp_poll.
      cbn [last_write].
      rewrite (last_write_polled _ loop_wait) by (intros t; reflexivity).
      cbn [last_write register_eqb]. exact H2.
  - apply bind_returned in H. destruct H as (res & st1 & tr1 & E & H).
    injection H as <- <-.
    destruct (getEvent_shape _ _ _ _ _ _ _ _ E) as (rd & _ & -> & -> & Hrd).
    destruct Hco as (H1 & H2 & H3).
    assert (Hc2 : _ctrl2_cache (object_at env st rd) = _ctrl2_cache st)
      by (unfold object_at; destruct (sample env rd) as [[? ?] ?]; reflexivity).
    assert (Hodr : _odr_cache (object_at env st rd) = _odr_cache st)
      by (unfold object_at; destruct (sample env rd) as [[? ?] ?]; reflexivity).
    unfold coherent. rewrite Hc2, Hodr.
    split; [exact H1|]. split; [|exact H3].
    cbn [last_write].
    destruct (Z.testbit (_ctrl2_cache st) 4).
    + rewrite Hrd. exact H2.
    + destruct Hrd as (k & _ & ->). unfold event_read, event_poll.
      cbn [last_write].
      rewrite (last_write_polled _ loop_wait) by (intros t; reflexivity).
      cbn [last_write register_eqb]. exact H2.
  - exact (setDataRate_coherent _ _ _ _ _ _ Hco H).
  - injection H as <- <-. exact Hco.
Qed.

Lemma run_calls_coherent (tgt : Target) (fuel : nat) (cs : list call)
    (env : Env) :
  forall (st : Adafruit_MMC5603) (tr : Trace) (st' : Adafruit_MMC5603)
         (tr' : Trace),
    coherent st tr ->
    run_calls tgt fuel cs env st tr = Done tt st' tr' ->
    coherent st' tr'.
Proof.
  induction cs as [|c cs IH]; intros st tr st' tr' Hco H.
  - injection H as <- <-. exact Hco.
  - cbn [run_calls] in H. apply bind_returned in H.
    destruct H as ([] & st1 & tr1 & E & H).
    apply (IH st1 tr1); [|exact H].
    exact (run_call_coherent _ _ _ _ _ _ _ _ Hco E).
Qed.

(** X4.  Once reset has run, whatever calls follow and return, the cached
    control register 2 is the value last written to the device's control
    register 2, and it holds nothing but the continuous bit 0x10 and the high
    power bit 0x80. *)
Theorem calls_keep_ctrl2_cache_coherent (tgt : Target) (fuel : nat)
    (cs : list call) (env : Env) (st : Adafruit_MMC5603) (tr : Trace)
    (st' : Adafruit_MMC5603) (tr' : Trace) :
  (reset ;; run_calls tgt fuel cs) env st tr = Done tt st' tr' ->
  last_write MMC56X3_CTRL2_REG tr' = Some (_ctrl2_cache st')
  /\ ctrl2_reachable (_ctrl2_cache st').
Proof.
  intros H. apply bind_returned in H.
  destruct H as ([] & st1 & tr1 & E & H).
  destruct (run_calls_coherent tgt fuel cs env st1 tr1 st' tr'
              (reset_coherent _ _ _ _ _ E) H) as (H1 & H2 & _).
  split; [exact H2|exact H1].
Qed.

(** X5.  Once reset has run, whatever calls follow and return, getDataRate
    answers the cached control register 2, which is 0, 16, 128 or 144: bit
    0x80 of its answer is set exactly when the cached rate is 1000, and bit
    0x10 is the answer of isContinuousMode.  The answer is the cached rate
    only where that rate is 0 or 16. *)
Theorem getDataRate_reports_mode_bits (tgt : Target) (fuel : nat)
    (cs : list call) (env : Env) (st : Adafruit_MMC5603) (tr : Trace)
    (v : Z) (st' : Adafruit_MMC5603) (tr' : Trace) :
  (reset ;; run_calls tgt fuel cs ;; getDataRate) env st tr = Done v st' tr' ->
  (v = 0 \/ v = 16 \/ v = 128 \/ v = 144)
  /\ Z.testbit v 7 = (_odr_cache st' =? 1000)
  /\ isContinuousMode env st' tr' = Done (Z.testbit v 4) st' tr'
  /\ v = _ctrl2_cache st'
  /\ (v = _odr_cache st' -> v = 0 \/ v = 16).
Proof.
  intros H. apply bind_returned in H.
  destruct H as ([] & st1 & tr1 & E & H).
  apply bind_returned in H. destruct H as ([] & st2 & tr2 & E2 & H).
  injection H as <- <- <-.
  destruct (run_calls_coherent tgt fuel cs env st1 tr1 st2 tr2
              (reset_coherent _ _ _ _ _ E) E2) as (H1 & _ & H3).
  split; [exact H1|]. split; [exact H3|].
  split; [apply isContinuousMode_run|]. split; [reflexivity|].
  intros Hv. rewrite <- Hv in H3.
  destruct H1 as [E0 | [E0 | [E0 | E0]]]; rewrite E0 in *;
    [left; reflexivity|right; reflexivity| |];
    vm_compute in H3; discriminate H3.
Qed.

Lemma calls_keep_ctrl2_cache_coherent_witness :
  exists st' tr',
    (reset ;; run_calls arm_target 1 example_session)
      ready_env continuous_object [] = Done tt st' tr'
    /\ last_write MMC56X3_CTRL2_REG tr' = Some (_ctrl2_cache st')
    /\ _ctrl2_cache st' = 0x10.
Proof.
  destruct ((reset ;; run_calls arm_target 1 example_session)
              ready_env continuous_object []) as [[] st' tr'|] eqn:E.
  - exists st', tr'. split; [reflexivity|].
    split.
    + exact (proj1 (calls_keep_ctrl2_cache_coherent arm_target 1
                      example_session ready_env continuous_object [] st' tr'
                      E)).
    + vm_compute in E. injection E as <- _. reflexivity.
  - vm_compute in E. discriminate E.
Defined.

Lemma getDataRate_reports_mode_bits_witness :
  exists v st' tr',
    (reset ;; run_calls arm_target 1 example_session ;; getDataRate)
      ready_env continuous_object [] = Done v st' tr'
    /\ v = 16
    /\ Z.testbit v 7 = (_odr_cache st' =? 1000).
Proof.
  destruct ((reset ;; run_calls arm_target 1 example_session ;; getDataRate)
              ready_env continuous_object []) as [v st' tr'|] eqn:E.
  - exists v, st', tr'. split; [reflexivity|].
    split.
    + vm_compute in E. injection E as <- _ _. reflexivity.
    + exact (proj1 (proj2 (getDataRate_reports_mode_bits arm_target 1
                             example_session ready_env continuous_object []
                             v st' tr' E))).
  - vm_compute in E. discriminate E.
Defined.

(** ** What reset, getEvent and readTemperature leave alone *)

Lemma writes_of_polled (evs tr : Trace) (k : nat) :
  (forall t, writes_of (evs ++ t) = writes_of t) ->
  writes_of (polled evs tr k) = writes_of tr.
Proof.
  intros Hevs. induction k as [|k IH]; [reflexivity|].
  cbn [polled]. rewrite Hevs. cbn [writes_of]. exact IH.
Qed.

(** X6.  reset does not clear the stored bias: a getEvent that follows a
    reset still subtracts, per axis, the bias the object held before the
    reset. *)
Theorem reset_keeps_bias (tgt : Target) (fuel : nat) (env : Env)
    (st : Adafruit_MMC5603) (tr : Trace) (r : bool) (ev : sensors_event_t)
    (st' : Adafruit_MMC5603) (tr' : Trace) :
  (reset ;; getEvent tgt fuel) env st tr = Done (r, ev) st' tr' ->
  bx st' = bx st /\ by_ st' = by_ st /\ bz st' = bz st
  /\ exists rd rx ry rz,
       tr' = BusRead MMC56X3_OUT_X_L 9 :: rd
       /\ sample env rd = (rx, ry, rz)
       /\ magnetic_x ev = scale_uT tgt (to_int32 (rx - bx st))
       /\ magnetic_y ev = scale_uT tgt (to_int32 (ry - by_ st))
       /\ magnetic_z ev = scale_uT tgt (to_int32 (rz - bz st)).
Proof.
  intros H. apply bind_returned in H.
  destruct H as ([] & st1 & tr1 & E & H).
  rewrite reset_run in E. injection E as <- <-.
  destruct (getEvent_shape _ _ _ _ _ _ _ _ H) as (rd & Hres & -> & -> & _).
  injection Hres as _ ->.
  unfold object_at, event_at.
  destruct (sample env rd) as [[rx ry] rz] eqn:Hs.
  split; [reflexivity|]. split; [reflexivity|]. split; [reflexivity|].
  exists rd, rx, ry, rz. split; [reflexivity|]. split; [exact Hs|].
  split; [reflexivity|]. split; reflexivity.
Qed.

Lemma reset_keeps_bias_witness :
  exists ev st' tr',
    (reset ;; getEvent arm_target 1) ready_env continuous_object []
    = Done (true, ev) st' tr'
    /\ bx st' = 100 /\ by_ st' = -200 /\ bz st' = 300.
Proof.
  destruct ((reset ;; getEvent arm_target 1) ready_env continuous_object [])
    as [[r ev] st' tr'|] eqn:E.
  - assert (Hr : r = true) by (vm_compute in E; injection E as <- _ _ _;
                               reflexivity).
    subst r. exists ev, st', tr'. split; [reflexivity|].
    destruct (reset_keeps_bias arm_target 1 ready_env continuous_object []
                true ev st' tr' E) as (H1 & H2 & H3 & _).
    split; [exact H1|]. split; [exact H2|exact H3].
  - vm_compute in E. discriminate E.
Defined.

(** What a getEvent that returned has left of object and bus. *)
Lemma getEvent_returned_frame (tgt : Target) (fuel : nat) (env : Env)
    (st : Adafruit_MMC5603) (tr : Trace) (res : bool * sensors_event_t)
    (st' : Adafruit_MMC5603) (tr' : Trace) :
  getEvent tgt fuel env st tr = Done res st' tr' ->
  st' = set_xyz st (x st') (y st') (z st')
  /\ (exists rd rx ry rz,
        tr' = BusRead MMC56X3_OUT_X_L 9 :: rd
        /\ sample env rd = (rx, ry, rz)
        /\ x st' = to_int32 (rx - bx st)
        /\ y st' = to_int32 (ry - by_ st)
        /\ z st' = to_int32 (rz - bz st))
  /\ writes_of tr'
     = (if Z.testbit (_ctrl2_cache st) 4 then []
        else [RegWrite MMC56X3_CTRL0_REG 0x01]) ++ writes_of tr.
Proof.
  intros H.
  destruct (getEvent_shape _ _ _ _ _ _ _ _ H) as (rd & _ & -> & -> & Hrd).
  unfold object_at. destruct (sample env rd) as [[rx ry] rz] eqn:Hs.
  split; [reflexivity|]. split.
  - exists rd, rx, ry, rz. split; [reflexivity|]. split; [exact Hs|].
    split; [reflexivity|]. split; reflexivity.
  - cbn [writes_of]. destruct (Z.testbit (_ctrl2_cache st) 4).
    + rewrite Hrd. reflexivity.
    + destruct Hrd as (k & _ & ->). unfold event_read, event_poll.
      cbn [writes_of].
      rewrite (writes_of_polled loop_wait) by (intros t; reflexivity).
      reflexivity.
Qed.

(** X7.  A getEvent that returns has changed nothing of the object but x, y
    and z, which hold the decoded sample minus the bias.  In continuous mode
    it has written nothing to the device; in one-shot mode its only write is
    the measurement trigger 0x01 to control register 0. *)
Theorem getEvent_frame (tgt : Target) (fuel : nat) (env : Env)
    (st : Adafruit_MMC5603) (tr : Trace) (res : bool * sensors_event_t)
    (st' : Adafruit_MMC5603) (tr' : Trace) :
  getEvent tgt fuel env st tr = Done res st' tr' ->
  st' = set_xyz st (x st') (y st') (z st')
  /\ (exists rd rx ry rz,
        tr' = BusRead MMC56X3_OUT_X_L 9 :: rd
        /\ sample env rd = (rx, ry, rz)
        /\ x st' = to_int32 (rx - bx st)
        /\ y st' = to_int32 (ry - by_ st)
        /\ z st' = to_int32 (rz - bz st))
  /\ writes_of tr'
     = (if Z.testbit (_ctrl2_cache st) 4 then []
        else [RegWrite MMC56X3_CTRL0_REG 0x01]) ++ writes_of tr.
Proof. apply getEvent_returned_frame. Qed.

Lemma getEvent_frame_witness :
  getEvent arm_target 1 ready_env oneshot_object []
  = Done (true, event_at arm_target ready_env oneshot_object
                  (event_read [] 0))
         (object_at ready_env oneshot_object (event_read [] 0))
         (BusRead MMC56X3_OUT_X_L 9 :: event_read [] 0)
  /\ writes_of (BusRead MMC56X3_OUT_X_L 9 :: event_read [] 0)
     = [RegWrite MMC56X3_CTRL0_REG 0x01].
Proof.
  assert (Hrun : getEvent arm_target 1 ready_env oneshot_object []
    = Done (true, event_at arm_target ready_env oneshot_object
                    (event_read [] 0))
           (object_at ready_env oneshot_object (event_read [] 0))
           (BusRead MMC56X3_OUT_X_L 9 :: event_read [] 0))
    by (vm_compute; reflexivity).
  split; [exact Hrun|].
  exact (proj2 (proj2 (getEvent_frame arm_target 1 ready_env oneshot_object
                         [] _ _ _ Hrun))).
Defined.

(** X8.  A readTemperature that returns has left the object as it was.  In
    continuous mode it has not touched the bus; in one-shot mode its only
    write is the temperature trigger 0x02 to control register 0, and the
    last thing it did is the one-byte read of the temperature register. *)
Theorem readTemperature_frame (tgt : Target) (fuel : nat) (env : Env)
    (st : Adafruit_MMC5603) (tr : Trace) (v : spec_float)
    (st' : Adafruit_MMC5603) (tr' : Trace) :
  readTemperature tgt fuel env st tr = Done v st' tr' ->
  st' = st
  /\ (if Z.testbit (_ctrl2_cache st) 4 then tr' = tr
      else exists rd, tr' = BusRead MMC56X3_OUT_TEMP 1 :: rd)
  /\ writes_of tr'
     = (if Z.testbit (_ctrl2_cache st) 4 then []
        else [RegWrite MMC56X3_CTRL0_REG 0x02]) ++ writes_of tr.
Proof.
  intros H.
  destruct (readTemperature_shape _ _ _ _ _ _ _ _ H) as (-> & Htr).
  split; [reflexivity|].
  destruct (Z.testbit (_ctrl2_cache st) 4).
  - rewrite Htr. split; reflexivity.
  - destruct Htr as (k & _ & ->). split; [eexists; reflexivity|].
    unfold temp_read, temp_poll. cbn [writes_of].
    rewrite (writes_of_polled loop_wait) by (intros t; reflexivity).
    reflexivity.
Qed.

Lemma readTemperature_frame_witness :
  readTemperature avr_target 1 ready_env oneshot_object []
  = Done (temp_of_raw avr_target 18) oneshot_object
      (BusRead MMC56X3_OUT_TEMP 1 :: temp_read [] 0)
  /\ writes_of (BusRead MMC56X3_OUT_TEMP 1 :: temp_read [] 0)
     = [RegWrite MMC56X3_CTRL0_REG 0x02].
Proof.
  assert (Hrun : readTemperature avr_target 1 ready_env oneshot_object []
    = Done (temp_of_raw avr_target 18) oneshot_object
        (BusRead MMC56X3_OUT_TEMP 1 :: temp_read [] 0))
    by (vm_compute; reflexivity).
  split; [exact Hrun|].
  exact (proj2 (proj2 (readTemperature_frame avr_target 1 ready_env
                         oneshot_object [] _ _ _ Hrun))).
Defined.

(** ** calibrate and the calls after it *)

Lemma bias_mean_range (a b : Z) :
  0 <= a < 2 ^ 20 -> 0 <= b < 2 ^ 20 -> 0 <= Z.quot (a + b) 2 < 2 ^ 20.
Proof.
  intros Ha Hb. change (2 ^ 20) with 1048576 in *.
  rewrite Z.quot_div_nonneg by lia.
  Z.div_mod_to_equations. lia.
Qed.

Lemma calibrate_bias_range (env : Env) (st : Adafruit_MMC5603) (tr : Trace)
    (fuel : nat) (st' : Adafruit_MMC5603) (tr' : Trace) :
  is_uint8 (_ctrl2_cache st) ->
  calibrate fuel env st tr = Done tt st' tr' ->
  0 <= bx st' < 2 ^ 20 /\ 0 <= by_ st' < 2 ^ 20 /\ 0 <= bz st' < 2 ^ 20.
Proof.
  intros Hc H.
  destruct (calibrate_returned_bias env st tr fuel st' tr' Hc H)
    as ((k1 & k2 & xh & yh & zh & xl & yl & zl & _ & _ & Hh & Hl
         & -> & -> & -> & _) & _).
  destruct (sample_range _ _ _ _ _ Hh) as (? & ? & ?).
  destruct (sample_range _ _ _ _ _ Hl) as (? & ? & ?).
  repeat split; apply bias_mean_range; assumption.
Qed.

(** X9.  The bias calibrate stores lies in 0 .. 2^20 - 1 on every axis.  So
    in a getEvent that follows, the int32_t subtraction cannot wrap: x, y and
    z are the plain differences raw - bias, strictly between -2^20 and
    2^20. *)
Theorem calibrate_then_getEvent_no_wrap (tgt : Target) (fuel : nat)
    (env : Env) (st : Adafruit_MMC5603) (tr : Trace)
    (res : bool * sensors_event_t) (st' : Adafruit_MMC5603) (tr' : Trace) :
  is_uint8 (_ctrl2_cache st) ->
  (calibrate fuel ;; getEvent tgt fuel) env st tr = Done res st' tr' ->
  (0 <= bx st' < 2 ^ 20 /\ 0 <= by_ st' < 2 ^ 20 /\ 0 <= bz st' < 2 ^ 20)
  /\ exists rd rx ry rz,
       tr' = BusRead MMC56X3_OUT_X_L 9 :: rd
       /\ sample env rd = (rx, ry, rz)
       /\ x st' = rx - bx st' /\ y st' = ry - by_ st' /\ z st' = rz - bz st'
       /\ - 2 ^ 20 < x st' < 2 ^ 20
       /\ - 2 ^ 20 < y st' < 2 ^ 20
       /\ - 2 ^ 20 < z st' < 2 ^ 20.
Proof.
  intros Hc H. apply bind_returned in H.
  destruct H as ([] & st1 & tr1 & E & H).
  destruct (calibrate_bias_range env st tr fuel st1 tr1 Hc E)
    as (Hbx & Hby & Hbz).
  destruct (getEvent_returned_frame _ _ _ _ _ _ _ _ H)
    as (Hst & (rd & rx & ry & rz & Htr & Hs & Hx & Hy & Hz) & _).
  assert (Ebx : bx st' = bx st1) by (rewrite Hst; reflexivity).
  assert (Eby : by_ st' = by_ st1) by (rewrite Hst; reflexivity).
  assert (Ebz : bz st' = bz st1) by (rewrite Hst; reflexivity).
  destruct (sample_range _ _ _ _ _ Hs) as (Rx & Ry & Rz).
  change (2 ^ 20) with 1048576 in *.
  rewrite to_int32_id in Hx, Hy, Hz
    by (unfold is_int32; change (2 ^ 31) with 2147483648; lia).
  rewrite Ebx, Eby, Ebz.
  split; [repeat split; lia|].
  exists rd, rx, ry, rz.
  split; [exact Htr|]. split; [exact Hs|].
  repeat split; lia.
Qed.

Lemma calibrate_then_getEvent_no_wrap_witness :
  is_uint8 (_ctrl2_cache oneshot_object)
  /\ exists res st' tr',
       (calibrate 1 ;; getEvent arm_target 1) odd_sum_env oneshot_object []
       = Done res st' tr'
       /\ 0 <= bx st' < 2 ^ 20.
Proof.
  assert (Hc : is_uint8 (_ctrl2_cache oneshot_object))
    by (unfold is_uint8; vm_compute; split; [discriminate|reflexivity]).
  split; [exact Hc|].
  destruct ((calibrate 1 ;; getEvent arm_target 1) odd_sum_env
              oneshot_object []) as [res st' tr'|] eqn:E.
  - exists res, st', tr'. split; [reflexivity|].
    exact (proj1 (proj1 (calibrate_then_getEvent_no_wrap arm_target 1
                           odd_sum_env oneshot_object [] res st' tr' Hc E))).
  - vm_compute in E. discriminate E.
Defined.

Lemma scale_uT_zero (tgt : Target) : scale_uT tgt 0 = S754_zero false.
Proof. destruct tgt as [ty sz fmt]. destruct fmt; reflexivity. Qed.

(** X10.  Calibration cancels a constant reading.  On a device whose XYZ
    reads always decode to the same sample, a getEvent after calibrate leaves
    x = y = z = 0 and reports +0.0 on every axis. *)
Theorem calibrate_cancels_constant_sample (tgt : Target) (fuel : nat)
    (env : Env) (st : Adafruit_MMC5603) (tr : Trace)
    (r : bool) (ev : sensors_event_t) (st' : Adafruit_MMC5603) (tr' : Trace) :
  is_uint8 (_ctrl2_cache st) ->
  (forall t1 t2, sample env t1 = sample env t2) ->
  (calibrate fuel ;; getEvent tgt fuel) env st tr = Done (r, ev) st' tr' ->
  x st' = 0 /\ y st' = 0 /\ z st' = 0
  /\ magnetic_x ev = S754_zero false
  /\ magnetic_y ev = S754_zero false
  /\ magnetic_z ev = S754_zero false.
Proof.
  intros Hc Hsteady H. apply bind_returned in H.
  destruct H as ([] & st1 & tr1 & E & H).
  destruct (calibrate_returned_bias env st tr fuel st1 tr1 Hc E)
    as ((k1 & k2 & xh & yh & zh & xl & yl & zl & _ & _ & Hh & Hl
         & Hbx & Hby & Hbz & _) & _).
  destruct (getEvent_shape _ _ _ _ _ _ _ _ H) as (rd & Hres & -> & -> & _).
  injection Hres as _ ->.
  unfold object_at, event_at.
  destruct (sample env rd) as [[rx ry] rz] eqn:Hs.
  rewrite (Hsteady _ rd), Hs in Hh. injection Hh as <- <- <-.
  rewrite (Hsteady _ rd), Hs in Hl. injection Hl as <- <- <-.
  destruct (sample_range _ _ _ _ _ Hs) as (Rx & Ry & Rz).
  change (2 ^ 20) with 1048576 in *.
  assert (Hhalf : forall a, 0 <= a -> Z.quot (a + a) 2 = a).
  { intros a Ha. rewrite Z.quot_div_nonneg by lia.
    Z.div_mod_to_equations. lia. }
  rewrite Hhalf in Hbx, Hby, Hbz by lia.
  cbn [x y z set_xyz magnetic_x magnetic_y magnetic_z].
  rewrite Hbx, Hby, Hbz, !Z.sub_diag.
  change (to_int32 0) with 0. rewrite scale_uT_zero.
  repeat split; reflexivity.
Qed.

Lemma calibrate_cancels_constant_sample_witness :
  is_uint8 (_ctrl2_cache oneshot_object)
  /\ (forall t1 t2, sample ready_env t1 = sample ready_env t2)
  /\ exists ev st' tr',
       (calibrate 1 ;; getEvent arm_target 1) ready_env oneshot_object []
       = Done (true, ev) st' tr'
       /\ x st' = 0 /\ magnetic_x ev = S754_zero false.
Proof.
  assert (Hc : is_uint8 (_ctrl2_cache oneshot_object))
    by (unfold is_uint8; vm_compute; split; [discriminate|reflexivity]).
  assert (Hsteady : forall t1 t2, sample ready_env t1 = sample ready_env t2)
    by (intros t1 t2; reflexivity).
  split; [exact Hc|]. split; [exact Hsteady|].
  destruct ((calibrate 1 ;; getEvent arm_target 1) ready_env
              oneshot_object []) as [[r ev] st' tr'|] eqn:E.
  - assert (Hr : r = true)
      by (vm_compute in E; injection E as <- _ _ _; reflexivity).
    subst r. exists ev, st', tr'. split; [reflexivity|].
    destruct (calibrate_cancels_constant_sample arm_target 1 ready_env
                oneshot_object [] true ev st' tr' Hc Hsteady E)
      as (Hx & _ & _ & Hm & _).
    split; [exact Hx|exact Hm].
  - vm_compute in E. discriminate E.
Defined.

(** X11.  calibrate returns only when both of its polls see the done bit.
    If the first poll never sees it, or the first one does and the second
    never does, calibrate exhausts every fuel: it hangs in the loop. *)
Theorem calibrate_hangs_in_either_poll (env : Env) (st : Adafruit_MMC5603)
    (tr : Trace) (fuel : nat) :
  ((forall j, status_bit env 6 (polled loop_set (cal_poll_high st tr) j) = 0)
   -> calibrate fuel env st tr = OutOfFuel)
  /\ (forall k1,
        done_at env 6 loop_set (cal_poll_high st tr) k1 ->
        (forall j, status_bit env 6
                     (polled loop_reset (cal_poll_low st tr k1) j) = 0) ->
        calibrate fuel env st tr = OutOfFuel).
Proof.
  split.
  - intros Hz. apply calibrate_spins. intros j _. apply Hz.
  - intros k1 D1 Hz.
    destruct (Nat.le_gt_cases fuel k1) as [Hle|Hgt].
    + apply calibrate_spins. intros j Hj. apply (proj1 D1). lia.
    + unfold calibrate. do 8 step.
      erewrite bind_done
        by (apply (while_not_completes env 6 loop_set);
            [apply loop_set_body|exact Hgt|exact D1]).
      erewrite bind_done by apply readXYZ_sample.
      do 4 step. apply bind_spin.
      apply (while_not_spins env 6 loop_reset _ (loop_reset_body env)).
      intros j _. apply Hz.
Qed.

Lemma once_env_status (tr : Trace) :
  status_bit once_env 6 tr
  = if (count_reads MMC56X3_OUT_X_L tr =? 0)%nat then 1 else 0.
Proof.
  unfold status_bit, once_env. cbn [device].
  destruct (count_reads MMC56X3_OUT_X_L tr =? 0)%nat; reflexivity.
Qed.

Lemma count_xyz_polled (evs tr : Trace) (k : nat) :
  (forall t, count_reads MMC56X3_OUT_X_L (evs ++ t)
             = count_reads MMC56X3_OUT_X_L t) ->
  count_reads MMC56X3_OUT_X_L (polled evs tr k)
  = count_reads MMC56X3_OUT_X_L tr.
Proof.
  intros Hevs. induction k as [|k IH]; [reflexivity|].
  cbn [polled]. rewrite Hevs. cbn [count_reads register_eqb]. exact IH.
Qed.

Lemma calibrate_hangs_in_either_poll_witness :
  done_at once_env 6 loop_set (cal_poll_high oneshot_object []) 0
  /\ (forall j, status_bit once_env 6
                  (polled loop_reset (cal_poll_low oneshot_object [] 0) j) = 0)
  /\ (forall j, status_bit stuck_env 6
                  (polled loop_set (cal_poll_high oneshot_object []) j) = 0)
  /\ calibrate 1000 once_env oneshot_object [] = OutOfFuel
  /\ calibrate 1000 stuck_env oneshot_object [] = OutOfFuel.
Proof.
  assert (D1 : done_at once_env 6 loop_set (cal_poll_high oneshot_object []) 0)
    by (split; [intros j Hj; lia|vm_compute; discriminate]).
  assert (Hz : forall j, status_bit once_env 6
                 (polled loop_reset (cal_poll_low oneshot_object [] 0) j) = 0)
    by (intros j; rewrite once_env_status,
          (count_xyz_polled loop_reset) by (intros t; reflexivity);
        reflexivity).
  assert (Hs : forall j, status_bit stuck_env 6
                 (polled loop_set (cal_poll_high oneshot_object []) j) = 0)
    by (intros j; apply never_done_stuck_env).
  split; [exact D1|]. split; [exact Hz|]. split; [exact Hs|].
  split.
  - exact (proj2 (calibrate_hangs_in_either_poll once_env oneshot_object []
                    1000) 0%nat D1 Hz).
  - exact (proj1 (calibrate_hangs_in_either_poll stuck_env oneshot_object []
                    1000) Hs).
Defined.

(** ** The numbers readTemperature and getEvent report *)

Lemma increasing_spec (l : list spec_float) (d : spec_float) :
  increasing l = true ->
  forall i j, (i < j < List.length l)%nat -> SFltb (nth i l d) (nth j l d) = true.
Proof.
  induction l as [|v l IH]; intros H i j Hij; [cbn [List.length] in Hij; lia|].
  cbn [increasing] in H. apply andb_true_iff in H. destruct H as [Hv Hl].
  cbn [List.length] in Hij. destruct j as [|j]; [lia|].
  destruct i as [|i].
  - cbn [nth]. apply (proj1 (forallb_forall _ _) Hv).
    apply nth_In. lia.
  - cbn [nth]. apply IH; [exact Hl|lia].
Qed.

(** X12.  The temperature readTemperature computes rises with the register
    byte: a larger byte always gives a strictly larger reading.  The byte 0
    gives exactly -75 and the byte 255 exactly 129, whichever format [double]
    has. *)
Theorem temp_of_raw_increasing (tgt : Target) (a b : Z) :
  0 <= a < b -> b < 256 ->
  SFltb (temp_of_raw tgt a) (temp_of_raw tgt b) = true
  /\ temp_of_raw tgt 0 = S754_finite true 9830400 (-17)
  /\ temp_of_raw tgt 255 = S754_finite false 8454144 (-16)
  /\ float_within (temp_of_raw tgt 0) (-75) 1 0 1 = true
  /\ float_within (temp_of_raw tgt 255) 129 1 0 1 = true.
Proof.
  intros Hab Hb.
  assert (Hinc : increasing (temp_table tgt) = true)
    by (destruct tgt as [ty sz fmt]; destruct fmt; vm_compute; reflexivity).
  assert (Hnth : forall v, 0 <= v < 256 ->
            nth (Z.to_nat v) (temp_table tgt) (temp_of_raw tgt (Z.of_nat 0))
            = temp_of_raw tgt v).
  { intros v Hv. unfold temp_table.
    rewrite (map_nth (fun n => temp_of_raw tgt (Z.of_nat n))).
    rewrite seq_nth by lia. cbn [Nat.add]. rewrite Z2Nat.id by lia.
    reflexivity. }
  split.
  - rewrite <- (Hnth a), <- (Hnth b) by lia.
    apply increasing_spec; [exact Hinc|].
    unfold temp_table. rewrite length_map, length_seq. lia.
  - destruct tgt as [ty sz fmt]. destruct fmt; vm_compute; repeat split.
Qed.

Lemma temp_of_raw_increasing_witness :
  0 <= 94 < 95 /\ 95 < 256
  /\ SFltb (temp_of_raw avr_target 94) (temp_of_raw avr_target 95) = true.
Proof.
  assert (H1 : 0 <= 94 < 95) by lia.
  assert (H2 : 95 < 256) by lia.
  split; [exact H1|]. split; [exact H2|].
  exact (proj1 (temp_of_raw_increasing avr_target 94 95 H1 H2)).
Defined.

Lemma binary_round_aux_opp (prec emax : Z) (s : bool) (m e : Z)
    (l : location) :
  binary_round_aux prec emax (negb s) m e l
  = SFopp (binary_round_aux prec emax s m e l).
Proof.
  unfold binary_round_aux.
  destruct (shr_fexp prec emax m e l) as [mrs' e'].
  destruct (shr_fexp prec emax _ e' loc_Exact) as [mrs'' e''].
  destruct (shr_m mrs'') as [|p|p]; [reflexivity| |reflexivity].
  destruct (e'' <=? emax - prec); reflexivity.
Qed.

Lemma binary_round_opp (prec emax : Z) (s : bool) (m : positive) (e : Z) :
  binary_round prec emax (negb s) m e = SFopp (binary_round prec emax s m e).
Proof.
  unfold binary_round.
  destruct (shl_align m e _) as [mz ez]. apply binary_round_aux_opp.
Qed.

Lemma float_of_Z_opp (f : fformat) (v : Z) :
  v <> 0 -> float_of_Z f (- v) = SFopp (float_of_Z f v).
Proof.
  intros Hv. unfold float_of_Z. destruct v as [|p|p]; [contradiction| |].
  - cbn [Z.opp binary_normalize]. apply (binary_round_opp _ _ false).
  - cbn [Z.opp binary_normalize].
    rewrite (binary_round_opp _ _ true). cbn [negb].
    destruct (binary_round (fprec f) (femax f) true p 0); cbn [SFopp];
      try reflexivity; rewrite negb_involutive; reflexivity.
Qed.

Lemma fconv_opp (f : fformat) (v : spec_float) :
  fconv f (SFopp v) = SFopp (fconv f v).
Proof.
  destruct v as [s|s| |s m e]; cbn [SFopp fconv]; try reflexivity.
  apply binary_round_opp.
Qed.

Lemma fmul_opp_l (f : fformat) (a : spec_float) (s : bool) (m : positive)
    (e : Z) :
  fmul f (SFopp a) (S754_finite s m e)
  = SFopp (fmul f a (S754_finite s m e)).
Proof.
  unfold fmul.
  destruct a as [sa|sa| |sa ma ea]; cbn [SFopp SFmul]; try reflexivity.
  - destruct sa, s; reflexivity.
  - destruct sa, s; reflexivity.
  - replace (xorb (negb sa) s) with (negb (xorb sa s))
      by (destruct sa, s; reflexivity).
    apply binary_round_aux_opp.
Qed.

(** X13.  The scale of getEvent is odd: a difference and its negative give
    fields that differ in sign only, so the reported field has no offset or
    asymmetry of its own. *)
Theorem scale_uT_odd (tgt : Target) (v : Z) :
  v <> 0 -> scale_uT tgt (- v) = SFopp (scale_uT tgt v).
Proof.
  intros Hv. unfold scale_uT.
  assert (Hlit : exists m e,
            fliteral (double_format tgt) 1 160 = S754_finite false m e)
    by (destruct tgt as [ty sz fmt]; destruct fmt;
        do 2 eexists; vm_compute; reflexivity).
  destruct Hlit as (m & e & ->).
  rewrite float_of_Z_opp by exact Hv.
  rewrite fconv_opp, fmul_opp_l, fconv_opp. reflexivity.
Qed.

Lemma scale_uT_odd_witness :
  3000 <> 0 /\ scale_uT arm_target (- 3000) = SFopp (scale_uT arm_target 3000).
Proof.
  assert (H : 3000 <> 0) by discriminate.
  split; [exact H|exact (scale_uT_odd arm_target 3000 H)].
Defined.

(** ** getSensor *)

Lemma firstn_repeat_more {A : Type} (a : A) (m k : nat) :
  firstn m (repeat a (k + m)) = repeat a m.
Proof.
  induction m as [|m IH]; [reflexivity|].
  rewrite Nat.add_succ_r. cbn [repeat firstn]. rewrite IH. reflexivity.
Qed.

Lemma c_str_zeros (m : nat) (rest : list ascii) :
  c_str (repeat zero m ++ zero :: rest) = EmptyString.
Proof. destruct m; reflexivity. Qed.

Lemma name_array_shape (src : string) (size : nat) :
  (1 <= size)%nat ->
  store_char (strncpy (repeat zero size) src (size - 1)) (size - 1) zero
  = firstn (size - 1) (list_ascii_of_string src ++ repeat zero (size - 1))
    ++ [zero].
Proof.
  intros Hsize. unfold strncpy, store_char.
  set (n := (size - 1)%nat).
  set (A := firstn n (list_ascii_of_string src ++ repeat zero n)).
  assert (HlenA : List.length A = n).
  { unfold A. apply firstn_length_le.
    rewrite length_app, repeat_length. lia. }
  assert (Hsk : skipn n (repeat zero size) = [zero]).
  { replace size with (n + 1)%nat by lia.
    rewrite repeat_app, skipn_app, repeat_length, Nat.sub_diag.
    rewrite skipn_all2 by (rewrite repeat_length; lia). reflexivity. }
  rewrite Hsk.
  rewrite firstn_app, HlenA, Nat.sub_diag, firstn_O, app_nil_r.
  rewrite (firstn_all2 A) by lia.
  rewrite skipn_all2 by (rewrite length_app, HlenA; cbn [List.length]; lia).
  reflexivity.
Qed.

(** X14.  getSensor touches neither the bus nor the object.  For a name
    array of any size from 1 up, the name it leaves fills the array, ends in
    NUL, and reads as "MMC5603" cut to what fits before the terminator, the
    whole of it from 8 characters up.  The resolution it reports is the field
    getEvent reports for a difference of one count, and the range is
    symmetric. *)
Theorem getSensor_fills_sensor (tgt : Target) (name_size : nat) (env : Env)
    (st : Adafruit_MMC5603) (tr : Trace) :
  (1 <= name_size)%nat ->
  exists s,
    getSensor tgt name_size env st tr = Done s st tr
    /\ List.length (sensor_t.name s) = name_size
    /\ nth (name_size - 1) (sensor_t.name s) "x"%char = zero
    /\ c_str (sensor_t.name s)
       = substring 0 (Nat.min 7 (name_size - 1)) "MMC5603"
    /\ ((8 <= name_size)%nat -> c_str (sensor_t.name s) = "MMC5603"%string)
    /\ sensor_t.resolution s = scale_uT tgt 1
    /\ sensor_t.min_value s = SFopp (sensor_t.max_value s)
    /\ sensor_t.sensor_id s = _sensorID st
    /\ sensor_t.type s = to_int32 (SENSOR_TYPE_MAGNETIC_FIELD tgt).
Proof.
  intros Hn. eexists. split; [reflexivity|].
  cbn [sensor_t.name sensor_t.resolution sensor_t.min_value
       sensor_t.max_value sensor_t.sensor_id sensor_t.type].
  assert (Hres : fconv binary32 (fliteral (double_format tgt) 1 160)
                 = scale_uT tgt 1)
    by (destruct tgt as [ty sz fmt]; destruct fmt; vm_compute; reflexivity).
  rewrite (name_array_shape "MMC5603" name_size Hn).
  set (A := firstn (name_size - 1)
              (list_ascii_of_string "MMC5603" ++ repeat zero (name_size - 1))).
  assert (HlenA : List.length A = (name_size - 1)%nat).
  { unfold A. apply firstn_length_le.
    rewrite length_app, repeat_length. lia. }
  assert (Hstr : c_str (A ++ [zero])
                 = substring 0 (Nat.min 7 (name_size - 1)) "MMC5603"
                 /\ ((8 <= name_size)%nat
                     -> c_str (A ++ [zero]) = "MMC5603"%string)).
  { unfold A. clear A HlenA.
    do 8 (destruct name_size as [|name_size];
          [split; [reflexivity|intros; lia]|]).
    replace (S (S (S (S (S (S (S (S name_size))))))) - 1)%nat
      with (7 + name_size)%nat by lia.
    rewrite firstn_app.
    rewrite (firstn_all2 (list_ascii_of_string "MMC5603"))
      by (cbn [list_ascii_of_string List.length]; lia).
    replace (7 + name_size - List.length (list_ascii_of_string "MMC5603"))%nat
      with name_size by (cbn [list_ascii_of_string List.length]; lia).
    rewrite firstn_repeat_more, <- app_assoc.
    assert (Hc : c_str (list_ascii_of_string "MMC5603"
                        ++ repeat zero name_size ++ [zero])
                 = "MMC5603"%string).
    { cbn [list_ascii_of_string app c_str Ascii.eqb Bool.eqb].
      rewrite c_str_zeros. reflexivity. }
    rewrite Hc. replace (Nat.min 7 (7 + name_size)) with 7%nat by lia.
    split; [reflexivity|intros _; reflexivity]. }
  split; [rewrite length_app, HlenA; cbn [List.length]; lia|].
  split.
  { rewrite app_nth2 by lia. rewrite HlenA, Nat.sub_diag. reflexivity. }
  split; [exact (proj1 Hstr)|]. split; [exact (proj2 Hstr)|].
  split; [exact Hres|]. split; [reflexivity|]. split; reflexivity.
Qed.

Lemma getSensor_fills_sensor_witness :
  (1 <= 12)%nat
  /\ exists s,
       getSensor arm_target 12 ready_env oneshot_object []
       = Done s oneshot_object []
       /\ c_str (sensor_t.name s) = "MMC5603"%string
       /\ List.length (sensor_t.name s) = 12%nat.
Proof.
  assert (H : (1 <= 12)%nat) by lia.
  split; [exact H|].
  destruct (getSensor_fills_sensor arm_target 12 ready_env oneshot_object []
              H) as (s & Hrun & Hlen & _ & _ & Hstr & _).
  exists s. split; [exact Hrun|]. split; [apply Hstr; lia|exact Hlen].
Defined.

(** ** How the mode and rate setters compose *)

(** The cache after a setter has set or cleared bit [k]. *)
Lemma bit_update_spec (b : bool) (c k n : Z) :
  0 <= k < 8 -> 0 <= n ->
  Z.testbit (if b then to_uint8 (Z.lor c (2 ^ k))
             else to_uint8 (Z.land c (Z.lnot (2 ^ k)))) n
  = if n =? k then b else (n <? 8) && Z.testbit c n.
Proof.
  intros Hk Hn. destruct b.
  - apply set_bit_spec; assumption.
  - apply clear_bit_spec; assumption.
Qed.

Lemma bit_update_twice (b1 b2 : bool) (c k : Z) :
  0 <= k < 8 ->
  (if b2
   then to_uint8 (Z.lor (if b1 then to_uint8 (Z.lor c (2 ^ k))
                         else to_uint8 (Z.land c (Z.lnot (2 ^ k)))) (2 ^ k))
   else to_uint8 (Z.land (if b1 then to_uint8 (Z.lor c (2 ^ k))
                          else to_uint8 (Z.land c (Z.lnot (2 ^ k))))
                         (Z.lnot (2 ^ k))))
  = if b2 then to_uint8 (Z.lor c (2 ^ k))
    else to_uint8 (Z.land c (Z.lnot (2 ^ k))).
Proof.
  intros Hk. apply Z.bits_inj'. intros n Hn.
  rewrite !(bit_update_spec b2) by assumption.
  destruct (n =? k) eqn:E; [reflexivity|].
  rewrite (bit_update_spec b1) by assumption. rewrite E.
  destruct (n <? 8); reflexivity.
Qed.

Lemma bit_update_commute (b1 b2 : bool) (c k1 k2 : Z) :
  0 <= k1 < 8 -> 0 <= k2 < 8 -> k1 <> k2 ->
  (if b2
   then to_uint8 (Z.lor (if b1 then to_uint8 (Z.lor c (2 ^ k1))
                         else to_uint8 (Z.land c (Z.lnot (2 ^ k1)))) (2 ^ k2))
   else to_uint8 (Z.land (if b1 then to_uint8 (Z.lor c (2 ^ k1))
                          else to_uint8 (Z.land c (Z.lnot (2 ^ k1))))
                         (Z.lnot (2 ^ k2))))
  = if b1
    then to_uint8 (Z.lor (if b2 then to_uint8 (Z.lor c (2 ^ k2))
                          else to_uint8 (Z.land c (Z.lnot (2 ^ k2)))) (2 ^ k1))
    else to_uint8 (Z.land (if b2 then to_uint8 (Z.lor c (2 ^ k2))
                           else to_uint8 (Z.land c (Z.lnot (2 ^ k2))))
                          (Z.lnot (2 ^ k1))).
Proof.
  intros Hk1 Hk2 Hne. apply Z.bits_inj'. intros n Hn.
  rewrite (bit_update_spec b2), (bit_update_spec b1) by assumption.
  rewrite (bit_update_spec b1), (bit_update_spec b2) by assumption.
  destruct (Z.eqb_spec n k1) as [E1|H1]; destruct (Z.eqb_spec n k2) as [E2|H2];
    try lia.
  - assert (Hlt : (n <? 8) = true) by (apply Z.ltb_lt; lia).
    rewrite Hlt. reflexivity.
  - assert (Hlt : (n <? 8) = true) by (apply Z.ltb_lt; lia).
    rewrite Hlt. reflexivity.
  - destruct (n <? 8); reflexivity.
Qed.

Lemma setContinuousMode_state (mode : bool) (env : Env)
    (st : Adafruit_MMC5603) (tr : Trace) :
  exists tr',
    setContinuousMode mode env st tr
    = Done tt (set_ctrl2_cache st
                 (if mode then to_uint8 (Z.lor (_ctrl2_cache st) (2 ^ 4))
                  else to_uint8 (Z.land (_ctrl2_cache st) (Z.lnot (2 ^ 4)))))
           tr'.
Proof.
  rewrite setContinuousMode_run. destruct mode; eexists; reflexivity.
Qed.

Lemma setDataRate_state (rate : Z) (env : Env)
    (st : Adafruit_MMC5603) (tr : Trace) :
  exists tr',
    setDataRate rate env st tr
    = Done tt (set_ctrl2_cache
                 (set_odr_cache st (if rate >? 255 then 1000 else rate))
                 (if rate >? 255
                  then to_uint8 (Z.lor (_ctrl2_cache st) (2 ^ 7))
                  else to_uint8 (Z.land (_ctrl2_cache st) (Z.lnot (2 ^ 7)))))
           tr'.
Proof.
  rewrite setDataRate_run. destruct (rate >? 255); eexists; reflexivity.
Qed.

(** X15.  The last setDataRate wins: after setDataRate(a) and then
    setDataRate(b) the object is what setDataRate(b) alone would have left,
    whatever the cache held. *)
Theorem setDataRate_last_call_wins (a b : Z) (env : Env)
    (st : Adafruit_MMC5603) (tr : Trace) :
  exists st' tr1 tr2,
    (setDataRate a ;; setDataRate b) env st tr = Done tt st' tr1
    /\ setDataRate b env st tr = Done tt st' tr2.
Proof.
  destruct (setDataRate_state a env st tr) as (ta & Ha).
  destruct (setDataRate_state b env st tr) as (tb & Hb).
  rewrite (bind_done _ _ _ _ _ _ _ _ Ha), Hb.
  match goal with
  | |- context [setDataRate b env ?s ta] =>
      destruct (setDataRate_state b env s ta) as (tab & Hab); rewrite Hab
  end.
  cbn [_ctrl2_cache _odr_cache set_ctrl2_cache set_odr_cache].
  rewrite (bit_update_twice (a >? 255) (b >? 255) _ 7) by lia.
  do 3 eexists. split; reflexivity.
Qed.

(** X16.  The last setContinuousMode wins, and a repeated one changes
    nothing more: after setContinuousMode(m1) and then setContinuousMode(m2)
    the object is what setContinuousMode(m2) alone would have left, and
    isContinuousMode answers m2. *)
Theorem setContinuousMode_last_call_wins (m1 m2 : bool) (env : Env)
    (st : Adafruit_MMC5603) (tr : Trace) :
  exists st' tr1 tr2,
    (setContinuousMode m1 ;; setContinuousMode m2) env st tr = Done tt st' tr1
    /\ setContinuousMode m2 env st tr = Done tt st' tr2
    /\ isContinuousMode env st' tr1 = Done m2 st' tr1.
Proof.
  destruct (setContinuousMode_state m1 env st tr) as (ta & Ha).
  destruct (setContinuousMode_state m2 env st tr) as (tb & Hb).
  rewrite (bind_done _ _ _ _ _ _ _ _ Ha), Hb.
  match goal with
  | |- context [setContinuousMode m2 env ?s ta] =>
      destruct (setContinuousMode_state m2 env s ta) as (tab & Hab);
      rewrite Hab
  end.
  cbn [_ctrl2_cache set_ctrl2_cache].
  rewrite (bit_update_twice m1 m2 _ 4) by lia.
  do 3 eexists. split; [reflexivity|]. split; [reflexivity|].
  rewrite isContinuousMode_run. cbn [_ctrl2_cache set_ctrl2_cache].
  rewrite (bit_update_spec m2 _ 4 4) by lia. reflexivity.
Qed.

(** X17.  setDataRate and setContinuousMode do not disturb each other: in
    either order they leave the same object, with the rate cache of the one
    and the mode of the other. *)
Theorem setDataRate_setContinuousMode_commute (rate : Z) (mode : bool)
    (env : Env) (st : Adafruit_MMC5603) (tr : Trace) :
  exists st' tr1 tr2,
    (setDataRate rate ;; setContinuousMode mode) env st tr = Done tt st' tr1
    /\ (setContinuousMode mode ;; setDataRate rate) env st tr
       = Done tt st' tr2
    /\ _odr_cache st' = (if rate >? 255 then 1000 else rate)
    /\ isContinuousMode env st' tr1 = Done mode st' tr1.
Proof.
  destruct (setDataRate_state rate env st tr) as (ta & Ha).
  destruct (setContinuousMode_state mode env st tr) as (tb & Hb).
  rewrite (bind_done _ _ _ _ _ _ _ _ Ha), (bind_done _ _ _ _ _ _ _ _ Hb).
  match goal with
  | |- context [setContinuousMode mode env ?s ta] =>
      destruct (setContinuousMode_state mode env s ta) as (tab & Hab);
      rewrite Hab
  end.
  match goal with
  | |- context [setDataRate rate env ?s tb] =>
      destruct (setDataRate_state rate env s tb) as (tba & Hba);
      rewrite Hba
  end.
  cbn [_ctrl2_cache _odr_cache set_ctrl2_cache set_odr_cache].
  rewrite (bit_update_commute (rate >? 255) mode _ 7 4) by lia.
  do 3 eexists. split; [reflexivity|]. split; [reflexivity|].
  split; [reflexivity|].
  rewrite isContinuousMode_run. cbn [_ctrl2_cache set_ctrl2_cache].
  rewrite (bit_update_spec (rate >? 255) _ 7 4) by lia.
  change (4 =? 7) with false. change (4 <? 8) with true. cbn [andb].
  rewrite (bit_update_spec mode _ 4 4) by lia. reflexivity.
Qed.
